(** * Dynamic pricing of perishable goods

    A shallow embedding of the pricing decision engine of the ML service:

    - [ml-service/main.py]: the rule-based calculator
      [calculate_rule_based_price], the preprocessing helpers, the
      single-product endpoint [predict_price] with its factor tags, and
      the batch endpoint [batch_predict];
    - [ml-service/training/train_model.py]: the synthetic label
      generator [calculate_target_price].

    Numbers.  Python [int] is [Z].  Python [float] is modelled by the
    exact rationals [Q]: every float literal denotes its decimal value and
    [*], [-], [/] are exact, so the development speaks about the pricing
    rules and not about binary rounding in the last place.  Where a
    statement does depend on that rounding, it is made about a second
    embedding of the calculator, on IEEE 754 doubles ([ProductData64],
    [calculate_rule_based_price64]).

    Effects.  Exceptions are a sum type, and code that raises, catches,
    reads the clock, writes to the log or draws random numbers lives in a
    small state-and-exception monad [M].  The process-wide [model] and
    [preprocessor] are only read while serving, so they are passed in as a
    [Globals] record. *)

From Stdlib Require Import Floats.
Set Warnings "-inexact-float".
From Stdlib Require Import QArith Qround Qabs ZArith Lia Lqa String Ascii List Bool.
From stdpp Require Import gmap strings pretty.
Import ListNotations.

Local Open Scope string_scope.
Local Open Scope Q_scope.

(** ** Python builtins used by the service *)

Module Py.

(** [x < y] on numbers. *)
Definition lt (x y : Q) : bool :=
  match x ?= y with Lt => true | _ => false end.

(** [max(x, y)]: the first argument unless the second is larger. *)
Definition max (x y : Q) : Q := if lt x y then y else x.

(** [min(x, y)]: the first argument unless the second is smaller. *)
Definition min (x y : Q) : Q := if lt y x then y else x.

(** Rounding to the nearest integer, ties to the even neighbour. *)
Definition round_half_even (x : Q) : Z :=
  let f := Qfloor x in
  match ((x - inject_Z f) ?= 1 # 2)%Q with
  | Lt => f
  | Gt => (f + 1)%Z
  | Eq => if Z.even f then f else (f + 1)%Z
  end.

(** [round(x, ndigits)]; the result is returned in lowest terms. *)
Definition round (x : Q) (ndigits : nat) : Q :=
  let scale := inject_Z (10 ^ Z.of_nat ndigits) in
  Qred (inject_Z (round_half_even (x * scale)) / scale).

Definition lower_ascii (c : ascii) : ascii :=
  let n := nat_of_ascii c in
  if ((65 <=? n) && (n <=? 90))%nat then ascii_of_nat (n + 32) else c.

(** [s.lower()] on ASCII text. *)
Fixpoint lower (s : string) : string :=
  match s with
  | EmptyString => EmptyString
  | String c s' => String (lower_ascii c) (lower s')
  end.

(** [x in xs] for a list of strings. *)
Definition contains (x : string) (xs : list string) : bool :=
  existsb (String.eqb x) xs.

End Py.

(** ** Exceptions, and the monad of effectful code *)

(** The exceptions that occur; all of them derive from [Exception].
    [Raised cls msg] stands for whatever else a collaborator (the fitted
    model, the fitted preprocessor) may raise. *)
Inductive PyException : Type :=
| HTTPException (status_code : Z) (detail : string)
| UnboundLocalError (name : string)
| IndexError (msg : string)
| KeyError (key : string)
| Raised (cls msg : string).

(** [str(e)], as interpolated by the f-strings of the service. *)
Definition exn_str (e : PyException) : string :=
  match e with
  | HTTPException status_code detail => pretty status_code ++ ": " ++ detail
  | UnboundLocalError name =>
      "cannot access local variable '" ++ name
        ++ "' where it is not associated with a value"
  | IndexError msg => msg
  | KeyError key => "'" ++ key ++ "'"
  | Raised _ msg => msg
  end.

Definition Result (A : Type) : Type := (PyException + A)%type.

(** A computation over a state [S] that returns or raises; the state
    survives an exception, as in Python. *)
Definition M (S A : Type) : Type := S -> Result A * S.

Definition ret {S A : Type} (a : A) : M S A := fun s => (inr a, s).

Definition raise {S A : Type} (e : PyException) : M S A := fun s => (inl e, s).

Definition lift {S A : Type} (r : Result A) : M S A := fun s => (r, s).

Definition bind {S A B : Type} (m : M S A) (k : A -> M S B) : M S B :=
  fun s =>
    match m s with
    | (inr a, s') => k a s'
    | (inl e, s') => (inl e, s')
    end.

(** [try: body  except Exception as e: handler e]. *)
Definition try_except {S A : Type} (body : M S A) (handler : PyException -> M S A)
  : M S A :=
  fun s =>
    match body s with
    | (inr a, s') => (inr a, s')
    | (inl e, s') => handler e s'
    end.

Notation "x <- m ;; k" := (bind m (fun x => k))
  (at level 100, m at next level, right associativity).
Notation "m ;;; k" := (bind m (fun _ => k))
  (at level 100, right associativity).

(** ** The serving process: clock and log *)

(** [datetime.now().isoformat()] is kept abstract: a timestamp is the
    reading of a clock that advances with every reading. *)
Definition Timestamp : Type := nat.

Record World : Type := mkWorld {
  clock : nat;
  log : list string
}.

Definition now : M World Timestamp :=
  fun w => (inr (clock w), {| clock := S (clock w); log := log w |}).

Definition logger_error (msg : string) : M World unit :=
  fun w => (inr tt, {| clock := clock w; log := (log w ++ [msg])%list |}).

(** ** Data model *)

Record ProductData : Type := mkProductData {
  current_price : Q;
  days_to_expiry : Z;
  stock_level : Z;
  demand_score : Q;
  category : string;
  historical_sales : Q;
  day_of_week : string
}.

(** The [Field] constraints that validation enforces on a request. *)
Definition valid_product (p : ProductData) : Prop :=
  0 < current_price p /\ (0 <= stock_level p)%Z
  /\ 0 <= demand_score p /\ demand_score p <= 1
  /\ 0 <= historical_sales p.

Record BatchPredictRequest : Type := mkBatchPredictRequest {
  products : list ProductData
}.

Record PredictionResponse : Type := mkPredictionResponse {
  recommended_price : Q;
  confidence : option Q;
  factors : option (list string);
  method : string;
  timestamp : Timestamp
}.

Record BatchPredictionResponse : Type := mkBatchPredictionResponse {
  predictions : list PredictionResponse;
  total_processed : nat;
  batch_timestamp : Timestamp
}.

(** A one-row-per-product frame and a two-dimensional feature array. *)
Definition DataFrame : Type := list ProductData.
Definition ndarray : Type := list (list Q).

(** The collaborators: a fitted regressor and a fitted column transformer.
    Either call may raise. *)
Record Estimator : Type := mkEstimator {
  predict : ndarray -> Result (list Q)
}.

Record Transformer : Type := mkTransformer {
  transform : DataFrame -> Result ndarray
}.

(** The module-level [model] and [preprocessor]; [None] is Python's [None]. *)
Record Globals : Type := mkGlobals {
  model : option Estimator;
  preprocessor : option Transformer
}.

(** [xs[i]]. *)
Definition getitem (xs : list Q) (i : nat) : Result Q :=
  match nth_error xs i with
  | Some x => inr x
  | None => inl (IndexError "index out of bounds")
  end.

(** [mdl.predict(processed_data)[0]]: the inference step. *)
Definition predict_first (mdl : Estimator) (processed_data : ndarray) : Result Q :=
  match predict mdl processed_data with
  | inr out => getitem out 0
  | inl e => inl e
  end.

(** ** main.py: preprocessing *)

(** Manual preprocessing when no preprocessor is available: the five
    numeric columns, then one-hot category, then one-hot day of week. *)
Definition manual_preprocessing (data : DataFrame) : ndarray :=
  let categories :=
    ["bakery"; "dairy"; "fruits"; "meat"; "other"; "seafood"; "vegetables"] in
  let days :=
    ["friday"; "monday"; "saturday"; "sunday"; "thursday"; "tuesday";
     "wednesday"] in
  map (fun row =>
         let features :=
           [current_price row;
            inject_Z (days_to_expiry row);
            inject_Z (stock_level row);
            demand_score row;
            historical_sales row] in
         let features :=
           (features
              ++ map (fun cat => if String.eqb (category row) cat then 1 else 0)
                     categories)%list in
         let features :=
           (features
              ++ map (fun day => if String.eqb (day_of_week row) day then 1 else 0)
                     days)%list in
         features)
      data.

(** The frame with a single row that [preprocess_data] builds. *)
Definition single_row_frame (product_data : ProductData) : DataFrame :=
  [ {| current_price := current_price product_data;
       days_to_expiry := days_to_expiry product_data;
       stock_level := stock_level product_data;
       demand_score := demand_score product_data;
       category := Py.lower (category product_data);
       historical_sales := historical_sales product_data;
       day_of_week := Py.lower (day_of_week product_data) |} ].

(** Any failure while building or transforming the frame is logged and
    re-raised as a 400 [HTTPException] that carries the cause. *)
Definition preprocess_data (g : Globals) (product_data : ProductData)
  : M World ndarray :=
  try_except
    (let data := single_row_frame product_data in
     processed_data <-
       match preprocessor g with
       | Some pre => lift (transform pre data)
       | None => ret (manual_preprocessing data)
       end ;;
     ret processed_data)
    (fun e =>
       logger_error ("Error preprocessing data: " ++ exn_str e) ;;;
       raise (HTTPException 400 ("Data preprocessing error: " ++ exn_str e))).

(** ** main.py: the rule-based calculator

    [price_multiplier] starts at [1.0] and is updated in place by five
    stages; each stage below takes the running multiplier and returns the
    updated one. *)

(** 1. Expiry-based pricing. *)
Definition expiry_stage (product_data : ProductData) (price_multiplier : Q) : Q :=
  let d := days_to_expiry product_data in
  if (d <=? 0)%Z then price_multiplier * 0.05
  else if (d <=? 1)%Z then price_multiplier * 0.25
  else if (d <=? 2)%Z then price_multiplier * 0.45
  else if (d <=? 3)%Z then price_multiplier * 0.60
  else if (d <=? 5)%Z then price_multiplier * 0.75
  else if (d <=? 7)%Z then price_multiplier * 0.85
  else if (d <=? 14)%Z then price_multiplier * 0.95
  else if (d <=? 21)%Z then price_multiplier * 1.0
  else price_multiplier * 1.05.

(** 2. Demand-based pricing. *)
Definition demand_stage (product_data : ProductData) (price_multiplier : Q) : Q :=
  let s := demand_score product_data in
  if Py.lt s 0.1 then price_multiplier * 0.75
  else if Py.lt s 0.3 then price_multiplier * 0.85
  else if Py.lt s 0.5 then price_multiplier * 0.95
  else if Py.lt s 0.7 then price_multiplier * 1.0
  else if Py.lt s 0.8 then price_multiplier * 1.08
  else if Py.lt s 0.9 then price_multiplier * 1.15
  else price_multiplier * 1.25.

(** 3. Stock level optimisation. *)
Definition stock_stage (product_data : ProductData) (price_multiplier : Q) : Q :=
  let n := stock_level product_data in
  if (300 <? n)%Z then price_multiplier * 0.80
  else if (200 <? n)%Z then price_multiplier * 0.90
  else if (100 <? n)%Z then price_multiplier * 0.96
  else if (50 <? n)%Z then price_multiplier * 1.0
  else if (20 <? n)%Z then price_multiplier * 1.08
  else if (10 <? n)%Z then price_multiplier * 1.15
  else price_multiplier * 1.30.

(** 4. Sales velocity optimisation; the chain has no final [else], and
    its branches are tested in the order of the source. *)
Definition sales_velocity_stage (product_data : ProductData) (price_multiplier : Q)
  : Q :=
  let h := historical_sales product_data in
  if Py.lt h 5 then price_multiplier * 0.85
  else if Py.lt h 20 then price_multiplier * 0.92
  else if Py.lt 50 h then price_multiplier * 1.05
  else if Py.lt 100 h then price_multiplier * 1.10
  else if Py.lt 200 h then price_multiplier * 1.15
  else price_multiplier.

(** 5. Category-specific adjustments. *)
Definition category_adjustments : gmap string Q :=
  {[ "meat" := 1.05;
     "seafood" := 1.08;
     "dairy" := 1.02;
     "fruits" := 0.98;
     "vegetables" := 0.96;
     "bakery" := 0.95;
     "other" := 1.0 ]}.

Definition category_stage (product_data : ProductData) (price_multiplier : Q) : Q :=
  let category_multiplier :=
    default 1.0 (category_adjustments !! Py.lower (category product_data)) in
  price_multiplier * category_multiplier.

(** 6. Price bounds, applied after the five stages: a floor of 0.70 for
    unexpired products in demand, then a ceiling of 1.35 unless the stock
    is scarce. *)
Definition bound_multiplier (product_data : ProductData) (price_multiplier : Q) : Q :=
  let price_multiplier :=
    if (0 <? days_to_expiry product_data)%Z && Py.lt 0.5 (demand_score product_data)
    then
      let min_multiplier := 0.70 in
      Py.max price_multiplier min_multiplier
    else price_multiplier in
  let price_multiplier :=
    if (5 <? stock_level product_data)%Z
    then
      let max_multiplier := 1.35 in
      Py.min price_multiplier max_multiplier
    else price_multiplier in
  price_multiplier.

(** The multiplier with which the final price is computed. *)
Definition final_multiplier (product_data : ProductData) : Q :=
  let price_multiplier := 1.0 in
  let price_multiplier := expiry_stage product_data price_multiplier in
  let price_multiplier := demand_stage product_data price_multiplier in
  let price_multiplier := stock_stage product_data price_multiplier in
  let price_multiplier := sales_velocity_stage product_data price_multiplier in
  let price_multiplier := category_stage product_data price_multiplier in
  bound_multiplier product_data price_multiplier.

Definition calculate_rule_based_price (product_data : ProductData) : Q :=
  let base_price := current_price product_data in
  let price_multiplier := final_multiplier product_data in
  let final_price := base_price * price_multiplier in
  let min_price := current_price product_data * 0.05 in
  Py.max final_price min_price.

(** ** main.py: factor tags of a model-based prediction

    The tags are appended to one list, block after block, in this order. *)

Definition expiry_factors (product_data : ProductData) : list string :=
  let d := days_to_expiry product_data in
  if (d <=? 0)%Z then ["expired_clearance"]
  else if (d <=? 1)%Z then ["critical_expiry"]
  else if (d <=? 3)%Z then ["expiry_proximity"]
  else if (d <=? 7)%Z then ["short_shelf_life"]
  else [].

Definition stock_factors (product_data : ProductData) : list string :=
  let n := stock_level product_data in
  if (200 <? n)%Z then ["excess_inventory"]
  else if (100 <? n)%Z then ["high_stock"]
  else if (n <? 20)%Z then ["low_stock"]
  else if (n <? 10)%Z then ["critical_stock"]
  else [].

Definition demand_factors (product_data : ProductData) : list string :=
  let s := demand_score product_data in
  if Py.lt s 0.2 then ["low_demand"]
  else if Py.lt 0.8 s then ["high_demand"]
  else if Py.lt 0.9 s then ["peak_demand"]
  else [].

Definition sales_factors (product_data : ProductData) : list string :=
  let h := historical_sales product_data in
  if Py.lt h 10 then ["slow_moving"]
  else if Py.lt 100 h then ["fast_moving"]
  else [].

Definition combined_factors (product_data : ProductData) : list string :=
  ((if (days_to_expiry product_data <=? 3)%Z
       && (100 <? stock_level product_data)%Z
    then ["urgent_clearance_needed"] else [])
   ++ (if (stock_level product_data <? 20)%Z
          && Py.lt 0.7 (demand_score product_data)
       then ["scarcity_premium"] else []))%list.

Definition pricing_factors (product_data : ProductData) : list string :=
  (expiry_factors product_data
   ++ stock_factors product_data
   ++ demand_factors product_data
   ++ sales_factors product_data
   ++ combined_factors product_data)%list.

(** ** main.py: the single-product endpoint *)

(** [product_data] has passed validation, so [current_price] is positive
    where the confidence divides by it. *)
Definition predict_price (g : Globals) (product_data : ProductData)
  : M World PredictionResponse :=
  try_except
    (match model g with
     | None =>
         (* Use rule-based pricing as fallback *)
         let recommended_price := calculate_rule_based_price product_data in
         ts <- now ;;
         ret {| recommended_price := Py.round recommended_price 2;
                confidence := Some 0.6;
                factors := Some ["rule_based_fallback"];
                method := "rule_based";
                timestamp := ts |}
     | Some mdl =>
         processed_data <- preprocess_data g product_data ;;
         prediction <- lift (predict_first mdl processed_data) ;;
         (* Ensure minimum price (10% of current price) *)
         let min_price := current_price product_data * 0.1 in
         let recommended_price := Py.max prediction min_price in
         let confidence :=
           Py.min 0.95
             (Py.max 0.6
                (1.0 - Qabs (prediction - current_price product_data)
                       / current_price product_data)) in
         let factors := pricing_factors product_data in
         ts <- now ;;
         ret {| recommended_price := Py.round recommended_price 2;
                confidence := Some (Py.round confidence 3);
                factors := Some factors;
                method := "ml_model";
                timestamp := ts |}
     end)
    (fun e =>
       logger_error ("Error in price prediction: " ++ exn_str e) ;;;
       (* Fallback to rule-based pricing *)
       let recommended_price := calculate_rule_based_price product_data in
       ts <- now ;;
       ret {| recommended_price := Py.round recommended_price 2;
              confidence := Some 0.5;
              factors := Some ["error_fallback"];
              method := "rule_based_fallback";
              timestamp := ts |}).

(** What the [except] branch of [predict_price] amounts to when it starts
    in the state [w]: its answer, and the state it leaves behind. *)
Definition error_fallback_response (product_data : ProductData) (w : World)
  : PredictionResponse :=
  {| recommended_price := Py.round (calculate_rule_based_price product_data) 2;
     confidence := Some 0.5;
     factors := Some ["error_fallback"];
     method := "rule_based_fallback";
     timestamp := clock w |}.

Definition after_error_fallback (e : PyException) (w : World) : World :=
  {| clock := S (clock w);
     log := (log w ++ [("Error in price prediction: " ++ exn_str e)%string])%list |}.

(** [r] is an answer of [predict_price] for [product_data], obtained in
    some state of the process. *)
Definition answers (g : Globals) (product_data : ProductData)
    (r : PredictionResponse) : Prop :=
  exists w w', predict_price g product_data w = (inr r, w').

(** ** main.py: the batch endpoint *)

(** The body of [for product_data in request.products], run on the
    products still to be visited; [predictions] is the list built so far. *)
Fixpoint batch_loop (g : Globals) (todo : list ProductData)
    (predictions : list PredictionResponse)
  : M World (list PredictionResponse) :=
  match todo with
  | [] => ret predictions
  | product_data :: todo' =>
      predictions <-
        try_except
          (prediction <- predict_price g product_data ;;
           ret (predictions ++ [prediction])%list)
          (fun e =>
             logger_error ("Error predicting price for product: " ++ exn_str e) ;;;
             (* Add fallback prediction *)
             let fallback_price := calculate_rule_based_price product_data in
             ts <- now ;;
             ret (predictions
                  ++ [ {| recommended_price := Py.round fallback_price 2;
                          confidence := Some 0.4;
                          factors := Some ["batch_error_fallback"];
                          method := "rule_based_fallback";
                          timestamp := ts |} ])%list) ;;
      batch_loop g todo' predictions
  end.

Definition batch_predict (g : Globals) (request : BatchPredictRequest)
  : M World BatchPredictionResponse :=
  try_except
    (predictions <- batch_loop g (products request) [] ;;
     ts <- now ;;
     ret {| predictions := predictions;
            total_processed := length predictions;
            batch_timestamp := ts |})
    (fun e =>
       logger_error ("Error in batch prediction: " ++ exn_str e) ;;;
       raise (HTTPException 500 ("Batch prediction failed: " ++ exn_str e))).

(** ** training/train_model.py: the random source *)

(** The generator behind [np.random]: an infinite supply of samples and
    the position of the next one.  A draw of [uniform] consumes a sample
    of the unit interval, a draw of [normal] a standard normal sample. *)
Record RandomState : Type := mkRandomState {
  draws : nat -> Q;
  cursor : nat
}.

Definition next_draw : M RandomState Q :=
  fun r =>
    (inr (draws r (cursor r)), {| draws := draws r; cursor := S (cursor r) |}).

(** [np.random.uniform(low, high)]. *)
Definition uniform (low high : Q) : M RandomState Q :=
  u <- next_draw ;; ret (low + (high - low) * u).

(** [np.random.normal(loc, scale)]. *)
Definition normal (loc scale : Q) : M RandomState Q :=
  z <- next_draw ;; ret (loc + scale * z).

(** ** training/train_model.py: local variables

    A name that is assigned somewhere in a function body is local to it,
    and reading it before its first assignment raises
    [UnboundLocalError]; an unbound local is [None] here. *)
Definition load_fast {S : Type} (name : string) (v : option Q) : M S Q :=
  match v with
  | Some x => ret x
  | None => raise (UnboundLocalError name)
  end.

(** [name *= rhs]: the local is read first, then [rhs] is evaluated. *)
Definition imul_fast {S : Type} (name : string) (v : option Q) (rhs : M S Q)
  : M S (option Q) :=
  x <- load_fast name v ;;
  y <- rhs ;;
  ret (Some (x * y)).

(** [d[key]]. *)
Definition subscript {S : Type} (d : gmap string Q) (key : string) : M S Q :=
  match d !! key with
  | Some v => ret v
  | None => raise (KeyError key)
  end.

(** ** training/train_model.py: the synthetic label generator *)

(** 1. Expiry-based pricing. *)
Definition target_expiry_stage (days_to_expiry : Z) (price_multiplier : Q)
  : M RandomState Q :=
  if (days_to_expiry <=? 0)%Z then
    u <- uniform 0.05 0.15 ;; ret (price_multiplier * u)
  else if (days_to_expiry <=? 1)%Z then
    u <- uniform 0.20 0.40 ;; ret (price_multiplier * u)
  else if (days_to_expiry <=? 2)%Z then
    u <- uniform 0.40 0.60 ;; ret (price_multiplier * u)
  else if (days_to_expiry <=? 3)%Z then
    u <- uniform 0.55 0.75 ;; ret (price_multiplier * u)
  else if (days_to_expiry <=? 5)%Z then
    u <- uniform 0.75 0.90 ;; ret (price_multiplier * u)
  else if (days_to_expiry <=? 7)%Z then
    u <- uniform 0.88 0.98 ;; ret (price_multiplier * u)
  else if (days_to_expiry <=? 14)%Z then
    u <- uniform 0.95 1.05 ;; ret (price_multiplier * u)
  else if (days_to_expiry <=? 21)%Z then
    u <- uniform 0.98 1.10 ;; ret (price_multiplier * u)
  else
    u <- uniform 1.00 1.15 ;; ret (price_multiplier * u).

(** 2. Demand-based pricing. *)
Definition target_demand_stage (demand_score : Q) (price_multiplier : Q)
  : M RandomState Q :=
  if Py.lt demand_score 0.1 then
    u <- uniform 0.70 0.85 ;; ret (price_multiplier * u)
  else if Py.lt demand_score 0.3 then
    u <- uniform 0.80 0.95 ;; ret (price_multiplier * u)
  else if Py.lt demand_score 0.5 then
    u <- uniform 0.90 1.00 ;; ret (price_multiplier * u)
  else if Py.lt demand_score 0.7 then
    u <- uniform 0.95 1.05 ;; ret (price_multiplier * u)
  else if Py.lt demand_score 0.8 then
    u <- uniform 1.02 1.12 ;; ret (price_multiplier * u)
  else if Py.lt demand_score 0.9 then
    u <- uniform 1.08 1.20 ;; ret (price_multiplier * u)
  else
    u <- uniform 1.15 1.35 ;; ret (price_multiplier * u).

(** 3. Stock level optimisation. *)
Definition target_stock_stage (stock_level : Z) (price_multiplier : Q)
  : M RandomState Q :=
  if (300 <? stock_level)%Z then
    u <- uniform 0.75 0.90 ;; ret (price_multiplier * u)
  else if (200 <? stock_level)%Z then
    u <- uniform 0.85 0.95 ;; ret (price_multiplier * u)
  else if (100 <? stock_level)%Z then
    u <- uniform 0.92 1.02 ;; ret (price_multiplier * u)
  else if (50 <? stock_level)%Z then
    u <- uniform 0.98 1.05 ;; ret (price_multiplier * u)
  else if (20 <? stock_level)%Z then
    u <- uniform 1.05 1.15 ;; ret (price_multiplier * u)
  else if (10 <? stock_level)%Z then
    u <- uniform 1.12 1.25 ;; ret (price_multiplier * u)
  else
    u <- uniform 1.20 1.50 ;; ret (price_multiplier * u).

(** 4. Sales velocity influence. *)
Definition target_sales_stage (historical_sales : Q) (price_multiplier : Q)
  : M RandomState Q :=
  if Py.lt historical_sales 5 then
    u <- uniform 0.80 0.92 ;; ret (price_multiplier * u)
  else if Py.lt historical_sales 20 then
    u <- uniform 0.90 0.98 ;; ret (price_multiplier * u)
  else if Py.lt 50 historical_sales then
    u <- uniform 1.02 1.08 ;; ret (price_multiplier * u)
  else if Py.lt 100 historical_sales then
    u <- uniform 1.05 1.15 ;; ret (price_multiplier * u)
  else if Py.lt 200 historical_sales then
    u <- uniform 1.10 1.25 ;; ret (price_multiplier * u)
  else ret price_multiplier.

(** The dictionary literal of category multipliers: seven draws, in the
    order of the source. *)
Definition category_multipliers : M RandomState (gmap string Q) :=
  dairy <- uniform 0.95 1.0 ;;
  meat <- uniform 0.98 1.02 ;;
  vegetables <- uniform 0.9 0.95 ;;
  fruits <- uniform 0.9 0.95 ;;
  bakery <- uniform 0.85 0.95 ;;
  seafood <- uniform 1.0 1.05 ;;
  other <- uniform 0.95 1.0 ;;
  ret ({[ "dairy" := dairy;
          "meat" := meat;
          "vegetables" := vegetables;
          "fruits" := fruits;
          "bakery" := bakery;
          "seafood" := seafood;
          "other" := other ]} : gmap string Q).

(** The function has two running locals: [price_multiplier], set to [1.0]
    on entry, and [price], which is only ever updated with [*=] or from its
    own value and is therefore unbound on entry. *)
Definition calculate_target_price
    (original_price : Q) (days_to_expiry stock_level : Z) (demand_score : Q)
    (category : string) (historical_sales : Q) (day_of_week : string)
  : M RandomState Q :=
  let price_multiplier := 1.0 in
  let price : option Q := None in
  price_multiplier <- target_expiry_stage days_to_expiry price_multiplier ;;
  price_multiplier <- target_demand_stage demand_score price_multiplier ;;
  let stock_ratio := Py.min (inject_Z stock_level / 100) 5.0 in
  price_multiplier <- target_stock_stage stock_level price_multiplier ;;
  price_multiplier <- target_sales_stage historical_sales price_multiplier ;;
  (* Historical sales influence *)
  price <-
    (if Py.lt historical_sales 20 then
       imul_fast "price" price (uniform 0.9 0.95)
     else if Py.lt 100 historical_sales then
       imul_fast "price" price (uniform 1.0 1.05)
     else ret price) ;;
  (* Category-specific adjustments *)
  category_multipliers <- category_multipliers ;;
  price <- imul_fast "price" price (subscript category_multipliers category) ;;
  (* Day of week effect *)
  price <-
    (if Py.contains day_of_week ["saturday"; "sunday"] then
       imul_fast "price" price (uniform 1.0 1.05)
     else if String.eqb day_of_week "monday" then
       imul_fast "price" price (uniform 0.95 1.0)
     else ret price) ;;
  (* Ensure minimum price (5% of original) *)
  let min_price := original_price * 0.05 in
  price <- (p <- load_fast "price" price ;; ret (Some (Py.max p min_price))) ;;
  (* Add some noise *)
  noise <- normal 1 0.02 ;;
  price <- imul_fast "price" price (ret noise) ;;
  p <- load_fast "price" price ;;
  ret (Py.round p 2).

(** ** Concrete requests and process states used as examples *)

(** A process that has just started, and one that runs without a model. *)
Definition boot : World := {| clock := 0; log := [] |}.

Definition no_model : Globals := {| model := None; preprocessor := None |}.

(** An expired dairy product with median demand and fifty units left. *)
Definition dairy_expired : ProductData :=
  {| current_price := 10.00;
     days_to_expiry := 0;
     stock_level := 50;
     demand_score := 0.5;
     category := "dairy";
     historical_sales := 10;
     day_of_week := "monday" |}.

(** Very fresh seafood in peak demand that sells well; [n] units left. *)
Definition fresh_seafood (n : Z) : ProductData :=
  {| current_price := 20.00;
     days_to_expiry := 30;
     stock_level := n;
     demand_score := 0.95;
     category := "Seafood";
     historical_sales := 60;
     day_of_week := "friday" |}.

(** A regressor that answers 18.50 for every row, one whose call fails,
    and a column transformer that rejects every frame (as a one-hot
    encoder does on a category it was not fitted with). *)
Definition constant_model : Estimator :=
  {| predict := fun rows => inr (map (fun _ => 18.50) rows) |}.

Definition failing_model : Estimator :=
  {| predict := fun _ => inl (Raised "XGBoostError" "feature shape mismatch") |}.

Definition failing_preprocessor : Transformer :=
  {| transform := fun _ => inl (Raised "ValueError" "Found unknown categories") |}.

(** A fixed random source: every sample is one half. *)
Definition seeded : RandomState := {| draws := fun _ => 1 # 2; cursor := 0 |}.

(** ** The process that loads or trains the model

    Loading and training read and write the module-level [model],
    [preprocessor] and [feature_names], the files under [models/], the two
    random generators ([np.random] and [random]) and the log. *)

(** One file of [models/]: absent, unreadable ([joblib.load] raises), or
    holding an object. *)
Definition File (A : Type) : Type := option (Result A).

Record ModelsDir : Type := mkModelsDir {
  model_path : File Estimator;
  preprocessor_path : File Transformer;
  features_path : File (list string)
}.

Record Process : Type := mkProcess {
  globals : Globals;
  feature_names : option (list string);
  models_dir : ModelsDir;
  np_random : RandomState;
  py_random : RandomState;
  records : list (string * string)
}.

(** One row of the synthetic data set: the product and its label. *)
Record Sample : Type := mkSample {
  sample_product : ProductData;
  target_price : Q
}.

(** What the numeric libraries contribute and this development does not
    compute: the generator state that a seed selects, the quantile
    functions behind [np.random.beta] and [np.random.poisson], and the
    fitting routine [train_xgboost_model]. *)
Record Libraries : Type := mkLibraries {
  np_seed : Z -> RandomState;
  py_seed : Z -> RandomState;
  beta_quantile : Q -> Q -> Q -> Q;
  poisson_quantile : Q -> Q -> Z;
  train_xgboost_model :
    list Sample -> Result (Estimator * Transformer * list string)
}.

(** [logger.info], [logger.warning] and [logger.error] of the process. *)
Definition logger (level msg : string) : M Process unit :=
  fun s =>
    (inr tt,
     {| globals := globals s;
        feature_names := feature_names s;
        models_dir := models_dir s;
        np_random := np_random s;
        py_random := py_random s;
        records := (records s ++ [(level, msg)])%list |}).

(** Running a computation on one of the two generators. *)
Definition with_np {A : Type} (m : M RandomState A) : M Process A :=
  fun s =>
    let (r, rs) := m (np_random s) in
    (r,
     {| globals := globals s;
        feature_names := feature_names s;
        models_dir := models_dir s;
        np_random := rs;
        py_random := py_random s;
        records := records s |}).

Definition with_py {A : Type} (m : M RandomState A) : M Process A :=
  fun s =>
    let (r, rs) := m (py_random s) in
    (r,
     {| globals := globals s;
        feature_names := feature_names s;
        models_dir := models_dir s;
        np_random := np_random s;
        py_random := rs;
        records := records s |}).

(** [np.random.seed(n)] and [random.seed(n)]. *)
Definition seed (rs : RandomState) : M RandomState unit := fun _ => (inr tt, rs).

(** [np.random.randint(low, high)]: an integer of [low, high). *)
Definition randint (low high : Z) : M RandomState Z :=
  u <- next_draw ;; ret (low + Qfloor (inject_Z (high - low) * u))%Z.

(** [np.random.beta(a, b)] and [np.random.poisson(lam)]. *)
Definition beta (lib : Libraries) (a b : Q) : M RandomState Q :=
  u <- next_draw ;; ret (beta_quantile lib a b u).

Definition poisson (lib : Libraries) (lam : Q) : M RandomState Z :=
  u <- next_draw ;; ret (poisson_quantile lib lam u).

(** [random.choice(xs)]: the element at a uniformly drawn index. *)
Definition choice {A : Type} (xs : list A) : M RandomState A :=
  u <- next_draw ;;
  match nth_error xs (Z.to_nat (Qfloor (inject_Z (Z.of_nat (length xs)) * u))) with
  | Some x => ret x
  | None => raise (IndexError "list index out of range")
  end.

(** ** training/train_model.py: the synthetic data set *)

Definition category_base_prices : gmap string (Q * Q) :=
  {[ "dairy" := (2, 15);
     "meat" := (5, 50);
     "vegetables" := (1, 8);
     "fruits" := (1, 12);
     "bakery" := (2, 20);
     "seafood" := (8, 60);
     "other" := (1, 30) ]}.

(** [str(df.shape)] for the frame built from [data]. *)
Definition shape_str (data : list Sample) : string :=
  match data with
  | [] => "(0, 0)"
  | _ => "(" ++ pretty (length data) ++ ", 8)"
  end.

(** The body of [for i in range(n_samples)], for the iterations still to
    run; [data] is the list built so far. *)
Fixpoint synthetic_loop (lib : Libraries) (todo : nat) (data : list Sample)
  : M Process (list Sample) :=
  match todo with
  | O => ret data
  | S todo' =>
      let categories :=
        ["dairy"; "meat"; "vegetables"; "fruits"; "bakery"; "seafood"; "other"] in
      let days_of_week :=
        ["monday"; "tuesday"; "wednesday"; "thursday"; "friday"; "saturday";
         "sunday"] in
      category <- with_py (choice categories) ;;
      price_range <-
        match category_base_prices !! category with
        | Some v => ret v
        | None => raise (KeyError category)
        end ;;
      let (min_price, max_price) := (price_range : Q * Q) in
      original_price <- with_np (uniform min_price max_price) ;;
      days_to_expiry <- with_np (randint (-2) 30) ;;
      stock_level <- with_np (randint 0 500) ;;
      demand_score <- with_np (beta lib 2 2) ;;
      historical_sales <- with_np (poisson lib 50) ;;
      day_of_week <- with_py (choice days_of_week) ;;
      target_price <-
        with_np
          (calculate_target_price original_price days_to_expiry stock_level
             demand_score category (inject_Z historical_sales) day_of_week) ;;
      synthetic_loop lib todo'
        (data
         ++ [ {| sample_product :=
                   {| current_price := original_price;
                      days_to_expiry := days_to_expiry;
                      stock_level := stock_level;
                      demand_score := demand_score;
                      category := category;
                      historical_sales := inject_Z historical_sales;
                      day_of_week := day_of_week |};
                 target_price := target_price |} ])%list
  end.

Definition create_synthetic_data (lib : Libraries) (n_samples : Z)
  : M Process (list Sample) :=
  logger "INFO"
    ("Creating " ++ pretty n_samples ++ " synthetic data samples...") ;;;
  with_np (seed (np_seed lib 42)) ;;;
  with_py (seed (py_seed lib 42)) ;;;
  data <- synthetic_loop lib (Z.to_nat n_samples) [] ;;
  logger "INFO" ("Created dataset with shape: " ++ shape_str data) ;;;
  ret data.

(** ** main.py: training and loading the model *)

Definition set_file_model (m : Estimator) : M Process unit :=
  fun s =>
    (inr tt,
     {| globals := globals s;
        feature_names := feature_names s;
        models_dir :=
          {| model_path := Some (inr m);
             preprocessor_path := preprocessor_path (models_dir s);
             features_path := features_path (models_dir s) |};
        np_random := np_random s;
        py_random := py_random s;
        records := records s |}).

Definition set_file_preprocessor (t : Transformer) : M Process unit :=
  fun s =>
    (inr tt,
     {| globals := globals s;
        feature_names := feature_names s;
        models_dir :=
          {| model_path := model_path (models_dir s);
             preprocessor_path := Some (inr t);
             features_path := features_path (models_dir s) |};
        np_random := np_random s;
        py_random := py_random s;
        records := records s |}).

Definition set_file_features (names : list string) : M Process unit :=
  fun s =>
    (inr tt,
     {| globals := globals s;
        feature_names := feature_names s;
        models_dir :=
          {| model_path := model_path (models_dir s);
             preprocessor_path := preprocessor_path (models_dir s);
             features_path := Some (inr names) |};
        np_random := np_random s;
        py_random := py_random s;
        records := records s |}).

(** Assignments to the three globals. *)
Definition set_model (m : Estimator) : M Process unit :=
  fun s =>
    (inr tt,
     {| globals := {| model := Some m; preprocessor := preprocessor (globals s) |};
        feature_names := feature_names s;
        models_dir := models_dir s;
        np_random := np_random s;
        py_random := py_random s;
        records := records s |}).

Definition set_preprocessor (t : Transformer) : M Process unit :=
  fun s =>
    (inr tt,
     {| globals := {| model := model (globals s); preprocessor := Some t |};
        feature_names := feature_names s;
        models_dir := models_dir s;
        np_random := np_random s;
        py_random := py_random s;
        records := records s |}).

Definition set_feature_names (names : list string) : M Process unit :=
  fun s =>
    (inr tt,
     {| globals := globals s;
        feature_names := Some names;
        models_dir := models_dir s;
        np_random := np_random s;
        py_random := py_random s;
        records := records s |}).

(** [path.exists()] and [joblib.load(path)]. *)
Definition exists_ {A : Type} (f : File A) : bool :=
  match f with Some _ => true | None => false end.

Definition joblib_load {A : Type} (name : string) (f : File A) : M Process A :=
  match f with
  | Some r => lift r
  | None => raise (Raised "FileNotFoundError" name)
  end.

Definition train_model (lib : Libraries) : M Process unit :=
  logger "INFO" "Training new model with synthetic data..." ;;;
  try_except
    (df <- create_synthetic_data lib 10000 ;;
     fitted <- lift (train_xgboost_model lib df) ;;
     let '(trained_model, trained_preprocessor, features) := fitted in
     set_file_model trained_model ;;;
     set_file_preprocessor trained_preprocessor ;;;
     set_file_features features ;;;
     set_model trained_model ;;;
     set_preprocessor trained_preprocessor ;;;
     set_feature_names features ;;;
     logger "INFO" "Model training completed successfully")
    (fun e =>
       logger "ERROR" ("Error training model: " ++ exn_str e) ;;;
       raise e).

Definition default_feature_names : list string :=
  ["current_price"; "days_to_expiry"; "stock_level"; "demand_score";
   "historical_sales"; "category_bakery"; "category_dairy";
   "category_fruits"; "category_meat"; "category_other";
   "category_seafood"; "category_vegetables"; "day_of_week_friday";
   "day_of_week_monday"; "day_of_week_saturday"; "day_of_week_sunday";
   "day_of_week_thursday"; "day_of_week_tuesday"; "day_of_week_wednesday"].

Definition load_model (lib : Libraries) : M Process bool :=
  try_except
    (fun s =>
       let dir := models_dir s in
       (if exists_ (model_path dir) && exists_ (preprocessor_path dir) then
          m <- joblib_load "models/xgboost_pricing_model.joblib" (model_path dir) ;;
          set_model m ;;;
          t <- joblib_load "models/preprocessor.joblib" (preprocessor_path dir) ;;
          set_preprocessor t ;;;
          (if exists_ (features_path dir) then
             names <- joblib_load "models/feature_names.joblib" (features_path dir) ;;
             set_feature_names names
           else
             set_feature_names default_feature_names) ;;;
          logger "INFO" "Model and preprocessor loaded successfully" ;;;
          ret true
        else
          logger "WARNING" "Model files not found. Training new model..." ;;;
          train_model lib ;;;
          ret true) s)
    (fun e =>
       logger "ERROR" ("Error loading model: " ++ exn_str e) ;;;
       ret false).

Definition startup_event (lib : Libraries) : M Process unit :=
  logger "INFO" "Starting ML service..." ;;;
  loaded <- load_model lib ;;
  if negb loaded then
    logger "ERROR" "Failed to load model" ;;;
    raise (Raised "RuntimeError" "Model loading failed")
  else ret tt.

(** ** main.py: the calculator in binary64

    The same function on IEEE 754 double-precision numbers, the [float] of
    Python: every [*=] rounds its product to the nearest double and every
    decimal literal denotes the nearest double.  Statements whose truth
    depends on that rounding are made about this embedding. *)

Record ProductData64 : Type := mkProductData64 {
  current_price64 : float;
  days_to_expiry64 : Z;
  stock_level64 : Z;
  demand_score64 : float;
  category64 : string;
  historical_sales64 : float;
  day_of_week64 : string
}.

(** [max(x, y)] and [min(x, y)] on doubles. *)
Definition max64 (x y : float) : float := if (x <? y)%float then y else x.

Definition min64 (x y : float) : float := if (y <? x)%float then y else x.

Definition expiry_stage64 (product_data : ProductData64) (price_multiplier : float)
  : float :=
  let d := days_to_expiry64 product_data in
  if (d <=? 0)%Z then (price_multiplier * 0.05)%float
  else if (d <=? 1)%Z then (price_multiplier * 0.25)%float
  else if (d <=? 2)%Z then (price_multiplier * 0.45)%float
  else if (d <=? 3)%Z then (price_multiplier * 0.60)%float
  else if (d <=? 5)%Z then (price_multiplier * 0.75)%float
  else if (d <=? 7)%Z then (price_multiplier * 0.85)%float
  else if (d <=? 14)%Z then (price_multiplier * 0.95)%float
  else if (d <=? 21)%Z then (price_multiplier * 1.0)%float
  else (price_multiplier * 1.05)%float.

Definition demand_stage64 (product_data : ProductData64) (price_multiplier : float)
  : float :=
  let s := demand_score64 product_data in
  if (s <? 0.1)%float then (price_multiplier * 0.75)%float
  else if (s <? 0.3)%float then (price_multiplier * 0.85)%float
  else if (s <? 0.5)%float then (price_multiplier * 0.95)%float
  else if (s <? 0.7)%float then (price_multiplier * 1.0)%float
  else if (s <? 0.8)%float then (price_multiplier * 1.08)%float
  else if (s <? 0.9)%float then (price_multiplier * 1.15)%float
  else (price_multiplier * 1.25)%float.

Definition stock_stage64 (product_data : ProductData64) (price_multiplier : float)
  : float :=
  let n := stock_level64 product_data in
  if (300 <? n)%Z then (price_multiplier * 0.80)%float
  else if (200 <? n)%Z then (price_multiplier * 0.90)%float
  else if (100 <? n)%Z then (price_multiplier * 0.96)%float
  else if (50 <? n)%Z then (price_multiplier * 1.0)%float
  else if (20 <? n)%Z then (price_multiplier * 1.08)%float
  else if (10 <? n)%Z then (price_multiplier * 1.15)%float
  else (price_multiplier * 1.30)%float.

Definition sales_velocity_stage64 (product_data : ProductData64)
    (price_multiplier : float) : float :=
  let h := historical_sales64 product_data in
  if (h <? 5)%float then (price_multiplier * 0.85)%float
  else if (h <? 20)%float then (price_multiplier * 0.92)%float
  else if (50 <? h)%float then (price_multiplier * 1.05)%float
  else if (100 <? h)%float then (price_multiplier * 1.10)%float
  else if (200 <? h)%float then (price_multiplier * 1.15)%float
  else price_multiplier.

Definition category_adjustments64 : gmap string float :=
  {[ "meat" := 1.05%float;
     "seafood" := 1.08%float;
     "dairy" := 1.02%float;
     "fruits" := 0.98%float;
     "vegetables" := 0.96%float;
     "bakery" := 0.95%float;
     "other" := 1.0%float ]}.

(** [str.lower] maps all of Unicode (the Kelvin sign to [k], for one);
    here it is a parameter, so that what is proved of the calculator holds
    of Python's own map.  [Py.lower] is that map on ASCII text. *)
Definition category_stage64 (str_lower : string -> string)
    (product_data : ProductData64) (price_multiplier : float) : float :=
  let category_multiplier :=
    default 1.0%float
      (category_adjustments64 !! str_lower (category64 product_data)) in
  (price_multiplier * category_multiplier)%float.

Definition bound_multiplier64 (product_data : ProductData64)
    (price_multiplier : float) : float :=
  let price_multiplier :=
    if (0 <? days_to_expiry64 product_data)%Z
       && (0.5 <? demand_score64 product_data)%float
    then
      let min_multiplier := 0.70%float in
      max64 price_multiplier min_multiplier
    else price_multiplier in
  let price_multiplier :=
    if (5 <? stock_level64 product_data)%Z
    then
      let max_multiplier := 1.35%float in
      min64 price_multiplier max_multiplier
    else price_multiplier in
  price_multiplier.

Definition final_multiplier64 (str_lower : string -> string)
    (product_data : ProductData64) : float :=
  let price_multiplier := 1.0%float in
  let price_multiplier := expiry_stage64 product_data price_multiplier in
  let price_multiplier := demand_stage64 product_data price_multiplier in
  let price_multiplier := stock_stage64 product_data price_multiplier in
  let price_multiplier := sales_velocity_stage64 product_data price_multiplier in
  let price_multiplier :=
    category_stage64 str_lower product_data price_multiplier in
  bound_multiplier64 product_data price_multiplier.

Definition calculate_rule_based_price64 (str_lower : string -> string)
    (product_data : ProductData64) : float :=
  let base_price := current_price64 product_data in
  let price_multiplier := final_multiplier64 str_lower product_data in
  let final_price := (base_price * price_multiplier)%float in
  let min_price := (current_price64 product_data * 0.05)%float in
  max64 final_price min_price.

(** The constants of the five tables; of the sales-velocity chain only
    the three that a product can receive. *)
Definition expiry_constants : list float :=
  [0.05; 0.25; 0.45; 0.60; 0.75; 0.85; 0.95; 1.0; 1.05]%float.

Definition demand_constants : list float :=
  [0.75; 0.85; 0.95; 1.0; 1.08; 1.15; 1.25]%float.

Definition stock_constants : list float :=
  [0.80; 0.90; 0.96; 1.0; 1.08; 1.15; 1.30]%float.

Definition sales_constants : list float := [0.85; 0.92; 1.05]%float.

Definition category_constants : list float :=
  [1.05; 1.08; 1.02; 0.98; 0.96; 0.95; 1.0]%float.

(** Every multiplier of [ms] times every constant of [consts]. *)
Definition scale_all (consts ms : list float) : list float :=
  flat_map (fun m => map (PrimFloat.mul m) consts) ms.

(** The multipliers that can leave the five stages when the expiry stage
    applies a constant of [expiry], and what the two bounds can make of a
    list of multipliers ([floor] tells whether the floor of 0.70 can
    apply). *)
Definition staged_multipliers (expiry : list float) : list float :=
  let e := scale_all expiry [1.0%float] in
  let d := scale_all demand_constants e in
  let s := scale_all stock_constants d in
  let v := (s ++ scale_all sales_constants s)%list in
  scale_all category_constants v.

Definition bounded_multipliers (floor : bool) (ms : list float) : list float :=
  let f :=
    if floor then (ms ++ map (fun m => max64 m 0.70%float) ms)%list else ms in
  (f ++ map (fun m => min64 m 1.35%float) f)%list.

(** Very fresh seafood in peak demand that sells well, as doubles. *)
Definition fresh_seafood64 (n : Z) : ProductData64 :=
  {| current_price64 := 20.0%float;
     days_to_expiry64 := 30;
     stock_level64 := n;
     demand_score64 := 0.95%float;
     category64 := "Seafood";
     historical_sales64 := 60%float;
     day_of_week64 := "friday" |}.

(** ** Auxiliary notions used to state properties *)

(** The sum of a list of numbers. *)
Definition Qsum (xs : list Q) : Q := fold_right Qplus 0 xs.

(** The tags that a model-based prediction can carry. *)
Definition pricing_tags : list string :=
  ["expired_clearance"; "critical_expiry"; "expiry_proximity";
   "short_shelf_life"; "excess_inventory"; "high_stock"; "low_stock";
   "low_demand"; "high_demand"; "slow_moving"; "fast_moving";
   "urgent_clearance_needed"; "scarcity_premium"].

(** [s'] differs from [s] at most in the random generators and the log. *)
Definition same_service (s s' : Process) : Prop :=
  globals s' = globals s
  /\ feature_names s' = feature_names s
  /\ models_dir s' = models_dir s.

(** A generator all of whose samples lie in the unit interval. *)
Definition unit_samples (rs : RandomState) : Prop :=
  forall k : nat, 0 <= draws rs k /\ draws rs k < 1.

(** Stand-ins for the numeric libraries, and a process that has just
    started in a directory without model files. *)
Definition stub_libraries : Libraries :=
  {| np_seed := fun _ => seeded;
     py_seed := fun _ => seeded;
     beta_quantile := fun _ _ u => u;
     poisson_quantile := fun lam u => Qfloor (2 * lam * u);
     train_xgboost_model :=
       fun _ => inr (constant_model, failing_preprocessor, default_feature_names) |}.

Definition fresh_process : Process :=
  {| globals := no_model;
     feature_names := None;
     models_dir :=
       {| model_path := None; preprocessor_path := None; features_path := None |};
     np_random := seeded;
     py_random := seeded;
     records := [] |}.

(** A process whose directory holds a model and a preprocessor but no
    list of feature names, and one whose preprocessor file is unreadable. *)
Definition stocked_process : Process :=
  {| globals := no_model;
     feature_names := None;
     models_dir :=
       {| model_path := Some (inr constant_model);
          preprocessor_path := Some (inr failing_preprocessor);
          features_path := None |};
     np_random := seeded;
     py_random := seeded;
     records := [] |}.

Definition damaged_process : Process :=
  {| globals := no_model;
     feature_names := None;
     models_dir :=
       {| model_path := Some (inr constant_model);
          preprocessor_path := Some (inl (Raised "EOFError" "Ran out of input"));
          features_path := None |};
     np_random := seeded;
     py_random := seeded;
     records := [] |}.

(** * Properties *)

(** Case analysis on every test of an [if]/[elif] chain in the goal. *)
Ltac branches :=
  repeat match goal with |- context [if ?b then _ else _] => destruct b end.

(** ** The builtins *)

Section Builtins.

Lemma lt_true_iff (x y : Q) : Py.lt x y = true <-> x < y.
Proof.
  unfold Py.lt. rewrite Qlt_alt.
  destruct (x ?= y); split; intros H; congruence.
Qed.

Lemma lt_false_iff (x y : Q) : Py.lt x y = false <-> y <= x.
Proof.
  rewrite <- not_true_iff_false, lt_true_iff. split.
  - apply Qnot_lt_le.
  - apply Qle_not_lt.
Qed.

Lemma max_cases (x y : Q) :
  (x < y /\ Py.max x y = y) \/ (y <= x /\ Py.max x y = x).
Proof.
  unfold Py.max. destruct (Py.lt x y) eqn:E.
  - left. apply lt_true_iff in E. auto.
  - right. apply lt_false_iff in E. auto.
Qed.

Lemma min_cases (x y : Q) :
  (y < x /\ Py.min x y = y) \/ (x <= y /\ Py.min x y = x).
Proof.
  unfold Py.min. destruct (Py.lt y x) eqn:E.
  - left. apply lt_true_iff in E. auto.
  - right. apply lt_false_iff in E. auto.
Qed.

Lemma max_ge_r (x y : Q) : y <= Py.max x y.
Proof. destruct (max_cases x y) as [[H ->] | [H ->]]; lra. Qed.

Lemma max_ge_l (x y : Q) : x <= Py.max x y.
Proof. destruct (max_cases x y) as [[H ->] | [H ->]]; lra. Qed.

Lemma max_lub (x y z : Q) : x <= z -> y <= z -> Py.max x y <= z.
Proof. intros. destruct (max_cases x y) as [[H' ->] | [H' ->]]; lra. Qed.

Lemma min_le_l (x y : Q) : Py.min x y <= x.
Proof. destruct (min_cases x y) as [[H ->] | [H ->]]; lra. Qed.

Lemma min_le_r (x y : Q) : Py.min x y <= y.
Proof. destruct (min_cases x y) as [[H ->] | [H ->]]; lra. Qed.

End Builtins.

(** ** The stages of the calculator

    Each of the first four stages multiplies a non-negative multiplier by
    a constant of its table, so it keeps the sign and grows by at most
    the largest constant that one of its branches can apply. *)

Section Stages.

Variable product_data : ProductData.
Variable m : Q.
Hypothesis m_nonneg : 0 <= m.

Lemma expiry_stage_range :
  0 <= expiry_stage product_data m /\ expiry_stage product_data m <= m * 1.05.
Proof.
  unfold expiry_stage.
  branches; lra.
Qed.

Lemma demand_stage_range :
  0 <= demand_stage product_data m /\ demand_stage product_data m <= m * 1.25.
Proof.
  unfold demand_stage.
  branches; lra.
Qed.

Lemma stock_stage_range :
  0 <= stock_stage product_data m /\ stock_stage product_data m <= m * 1.30.
Proof.
  unfold stock_stage.
  branches; lra.
Qed.

(** The [> 100] and [> 200] branches sit behind [> 50]; a value that
    reaches them fails [50 < h] and therefore fails their tests too. *)
Lemma sales_velocity_stage_range :
  0 <= sales_velocity_stage product_data m
  /\ sales_velocity_stage product_data m <= m * 1.05.
Proof.
  unfold sales_velocity_stage.
  destruct (Py.lt (historical_sales product_data) 5); [lra |].
  destruct (Py.lt (historical_sales product_data) 20); [lra |].
  destruct (Py.lt 50 (historical_sales product_data)) eqn:E50; [lra |].
  apply lt_false_iff in E50.
  destruct (Py.lt 100 (historical_sales product_data)) eqn:E100.
  { apply lt_true_iff in E100. lra. }
  destruct (Py.lt 200 (historical_sales product_data)) eqn:E200.
  { apply lt_true_iff in E200. lra. }
  lra.
Qed.

Lemma category_multiplier_range (key : string) :
  0 <= default 1.0 (category_adjustments !! key)
  /\ default 1.0 (category_adjustments !! key) <= 1.08.
Proof.
  assert (A : map_Forall (fun _ v => 0 <= v /\ v <= 1.08) category_adjustments).
  { unfold category_adjustments.
    repeat (apply map_Forall_insert_2; [lra |]).
    apply map_Forall_empty. }
  destruct (category_adjustments !! key) as [v |] eqn:E; simpl.
  - exact (A key v E).
  - lra.
Qed.

Lemma category_stage_range :
  0 <= category_stage product_data m /\ category_stage product_data m <= m * 1.08.
Proof.
  unfold category_stage.
  destruct (category_multiplier_range (Py.lower (category product_data)))
    as [L U].
  split.
  - apply Qmult_le_0_compat; assumption.
  - rewrite !(Qmult_comm m). apply Qmult_le_compat_r; assumption.
Qed.

End Stages.

Section Calculator.

Variable product_data : ProductData.

(** Before the bounds are applied the multiplier is at most the product
    of the five largest reachable constants. *)
Lemma staged_multiplier_range :
  let r :=
    category_stage product_data
      (sales_velocity_stage product_data
         (stock_stage product_data
            (demand_stage product_data (expiry_stage product_data 1.0)))) in
  0 <= r /\ r <= 1.9348875.
Proof.
  cbv zeta.
  assert (H0 : 0 <= 1.0) by lra.
  pose proof (expiry_stage_range product_data 1.0 H0) as [E0 E1].
  pose proof (demand_stage_range product_data _ E0) as [D0 D1].
  pose proof (stock_stage_range product_data _ D0) as [S0 S1].
  pose proof (sales_velocity_stage_range product_data _ S0) as [V0 V1].
  pose proof (category_stage_range product_data _ V0) as [C0 C1].
  split; [assumption | lra].
Qed.

Lemma final_multiplier_ceiling :
  (5 < stock_level product_data)%Z -> final_multiplier product_data <= 1.35.
Proof.
  intros H. unfold final_multiplier, bound_multiplier.
  apply Z.ltb_lt in H. rewrite H. apply min_le_r.
Qed.

(** A bound on the multiplier is a bound on the price, provided it also
    covers the 5% floor. *)
Lemma price_upper_of_multiplier (b : Q) :
  0 <= current_price product_data ->
  0.05 <= b ->
  final_multiplier product_data <= b ->
  calculate_rule_based_price product_data <= b * current_price product_data.
Proof.
  intros Hp Hb Hm. unfold calculate_rule_based_price. cbv zeta.
  apply max_lub.
  - rewrite (Qmult_comm b). rewrite !(Qmult_comm (current_price product_data)).
    apply Qmult_le_compat_r; assumption.
  - rewrite (Qmult_comm b). rewrite !(Qmult_comm (current_price product_data)).
    apply Qmult_le_compat_r; assumption.
Qed.

End Calculator.

(** ** The calculator: floor and ceilings *)

(** C1.  For every product the rule-based calculator returns at least
    5% of the current price; the final [max] with [min_price] guarantees
    it whatever the stages and bounds did before. *)
Theorem rule_based_price_floor (product_data : ProductData) :
  0.05 * current_price product_data <= calculate_rule_based_price product_data.
Proof.
  unfold calculate_rule_based_price. cbv zeta.
  eapply Qle_trans; [| apply max_ge_r].
  rewrite Qmult_comm. apply Qle_refl.
Qed.

(** C6.  When more than five units are in stock the multiplier that
    leaves the bounding step is at most 1.35, and so the calculator
    returns at most 1.35 times the current price. *)
Theorem rule_based_price_ceiling (product_data : ProductData) :
  valid_product product_data ->
  (5 < stock_level product_data)%Z ->
  final_multiplier product_data <= 1.35
  /\ calculate_rule_based_price product_data <= 1.35 * current_price product_data.
Proof.
  intros (Hp & _) Hs.
  pose proof (final_multiplier_ceiling product_data Hs) as Hm.
  split; [exact Hm |].
  apply price_upper_of_multiplier; [lra | lra | exact Hm].
Qed.

Lemma rule_based_price_ceiling_witness :
  valid_product (fresh_seafood 8)
  /\ (5 < stock_level (fresh_seafood 8))%Z
  /\ final_multiplier (fresh_seafood 8) <= 1.35
  /\ calculate_rule_based_price (fresh_seafood 8)
     <= 1.35 * current_price (fresh_seafood 8).
Proof.
  assert (V : valid_product (fresh_seafood 8)).
  { unfold valid_product; simpl. repeat split; try lra; lia. }
  assert (S : (5 < stock_level (fresh_seafood 8))%Z) by (simpl; lia).
  split; [exact V |]. split; [exact S |].
  exact (rule_based_price_ceiling (fresh_seafood 8) V S).
Defined.

(** ** The sales-velocity chain *)

(** C4.  With [historical_sales = 150] the chain stops at its third
    test, [> 50], and multiplies by 1.05; the [> 100] branch with its
    1.10 is never reached. *)
Theorem sales_velocity_150_takes_gt_50_branch (product_data : ProductData) (m : Q) :
  historical_sales product_data == 150 ->
  sales_velocity_stage product_data m = m * 1.05.
Proof.
  intros H. unfold sales_velocity_stage.
  assert (E5 : Py.lt (historical_sales product_data) 5 = false)
    by (apply lt_false_iff; lra).
  assert (E20 : Py.lt (historical_sales product_data) 20 = false)
    by (apply lt_false_iff; lra).
  assert (E50 : Py.lt 50 (historical_sales product_data) = true)
    by (apply lt_true_iff; lra).
  rewrite E5, E20, E50. reflexivity.
Qed.

Lemma sales_velocity_150_witness :
  historical_sales (mkProductData 10.00 10 50 0.5 "meat" 150 "monday") == 150
  /\ sales_velocity_stage (mkProductData 10.00 10 50 0.5 "meat" 150 "monday") 1.0
     = 1.0 * 1.05.
Proof.
  split; [reflexivity |].
  apply sales_velocity_150_takes_gt_50_branch. reflexivity.
Defined.

(** ** The expired-dairy scenario *)

(** C3, as stated, fails: for the expired dairy product with no model
    loaded the recommended price is not 0.50. *)
Lemma dairy_expired_price_is_not_050 :
  exists r w',
    predict_price no_model dairy_expired boot = (inr r, w')
    /\ method r = "rule_based"
    /\ ~ recommended_price r == 0.50.
Proof.
  eexists. eexists. split; [reflexivity |]. split; [reflexivity |].
  intros P. vm_compute in P. discriminate P.
Qed.

(** C3, amended.  For the expired dairy product with no model loaded,
    [predict_price] answers with method [rule_based] and the price 0.51.
    The stages apply 0.05 (expiry), 1.0 (demand 0.5 is not below 0.5),
    1.08 (stock 50 is not above 50), 0.92 (sales 10 is below 20) and 1.02
    (dairy); the price 0.506736 already exceeds the floor of 0.50. *)
Theorem dairy_expired_scenario (pre : option Transformer) (w : World) :
  predict_price {| model := None; preprocessor := pre |} dairy_expired w
  = (inr {| recommended_price := 0.51;
            confidence := Some 0.6;
            factors := Some ["rule_based_fallback"];
            method := "rule_based";
            timestamp := clock w |},
     {| clock := S (clock w); log := log w |})
  /\ (forall m : Q,
         expiry_stage dairy_expired m = m * 0.05
         /\ demand_stage dairy_expired m = m * 1.0
         /\ stock_stage dairy_expired m = m * 1.08
         /\ sales_velocity_stage dairy_expired m = m * 0.92
         /\ category_stage dairy_expired m = m * 1.02)
  /\ calculate_rule_based_price dairy_expired == 0.506736
  /\ 0.05 * current_price dairy_expired < calculate_rule_based_price dairy_expired.
Proof.
  split; [| split; [| split]].
  - unfold predict_price, try_except, bind, now, ret. cbn [model].
    replace (Py.round (calculate_rule_based_price dairy_expired) 2) with 0.51
      by (vm_compute; reflexivity).
    reflexivity.
  - intros m. repeat split; reflexivity.
  - vm_compute. reflexivity.
  - vm_compute. reflexivity.
Qed.

(** ** The single-product endpoint *)

Section Endpoint.

Variable g : Globals.
Variable product_data : ProductData.

(** [preprocess_data] turns a failure of the transformer into the 400. *)
Lemma preprocess_data_transform_error (pre : Transformer) (e : PyException) (w : World) :
  preprocessor g = Some pre ->
  transform pre (single_row_frame product_data) = inl e ->
  preprocess_data g product_data w
  = (inl (HTTPException 400 ("Data preprocessing error: " ++ exn_str e)),
     {| clock := clock w;
        log := (log w ++ [("Error preprocessing data: " ++ exn_str e)%string])%list |}).
Proof.
  intros Hpre Htr. unfold preprocess_data, try_except, bind, lift.
  rewrite Hpre, Htr. reflexivity.
Qed.

(** Whatever the body of the [try] raises, the handler answers. *)
Lemma predict_price_handler (e : PyException) (w : World) :
  (logger_error ("Error in price prediction: " ++ exn_str e) ;;;
   (let recommended_price := calculate_rule_based_price product_data in
    ts <- now ;;
    ret {| recommended_price := Py.round recommended_price 2;
           confidence := Some 0.5;
           factors := Some ["error_fallback"];
           method := "rule_based_fallback";
           timestamp := ts |})) w
  = (inr (error_fallback_response product_data w), after_error_fallback e w).
Proof. reflexivity. Qed.

(** [predict_price] always returns, and its tags come from one of three
    places. *)
Lemma predict_price_returns (w : World) :
  exists r w',
    predict_price g product_data w = (inr r, w')
    /\ (factors r = Some ["rule_based_fallback"]
        \/ factors r = Some ["error_fallback"]
        \/ factors r = Some (pricing_factors product_data)).
Proof.
  unfold predict_price, try_except.
  destruct (model g) as [mdl |].
  - unfold bind at 1.
    destruct (preprocess_data g product_data w) as [[e | x] w1].
    { rewrite predict_price_handler. eauto 6. }
    unfold bind at 1, lift.
    destruct (predict_first mdl x) as [e | y].
    { rewrite predict_price_handler. eauto 6. }
    cbv zeta. unfold bind, now, ret. eauto 6.
  - cbv zeta. unfold bind, now, ret. eauto 6.
Qed.

End Endpoint.

(** C2.  With a model loaded, if the inference step
    [model.predict(processed_data)[0]] raises, [predict_price] does not
    raise: it returns the calculator's price rounded to two decimals with
    confidence 0.5, the single tag [error_fallback] and the method
    [rule_based_fallback]. *)
Theorem predict_price_inference_error_fallback
    (g : Globals) (mdl : Estimator) (product_data : ProductData)
    (processed_data : ndarray) (e : PyException) (w w1 : World) :
  model g = Some mdl ->
  preprocess_data g product_data w = (inr processed_data, w1) ->
  predict_first mdl processed_data = inl e ->
  predict_price g product_data w
  = (inr {| recommended_price :=
              Py.round (calculate_rule_based_price product_data) 2;
            confidence := Some 0.5;
            factors := Some ["error_fallback"];
            method := "rule_based_fallback";
            timestamp := clock w1 |},
     after_error_fallback e w1).
Proof.
  intros Hm Hpre Hinf. unfold predict_price, try_except.
  rewrite Hm. unfold bind at 1. rewrite Hpre.
  unfold bind at 1, lift. rewrite Hinf.
  apply predict_price_handler.
Qed.

Lemma predict_price_inference_error_fallback_witness :
  let g := {| model := Some failing_model; preprocessor := None |} in
  let x := manual_preprocessing (single_row_frame dairy_expired) in
  let e := Raised "XGBoostError" "feature shape mismatch" in
  model g = Some failing_model
  /\ preprocess_data g dairy_expired boot = (inr x, boot)
  /\ predict_first failing_model x = inl e
  /\ predict_price g dairy_expired boot
     = (inr {| recommended_price :=
                 Py.round (calculate_rule_based_price dairy_expired) 2;
               confidence := Some 0.5;
               factors := Some ["error_fallback"];
               method := "rule_based_fallback";
               timestamp := clock boot |},
        after_error_fallback e boot).
Proof.
  intros g x e.
  assert (Hm : model g = Some failing_model) by reflexivity.
  assert (Hp : preprocess_data g dairy_expired boot = (inr x, boot))
    by reflexivity.
  assert (Hi : predict_first failing_model x = inl e) by reflexivity.
  split; [exact Hm |]. split; [exact Hp |]. split; [exact Hi |].
  exact (predict_price_inference_error_fallback
           g failing_model dairy_expired x e boot boot Hm Hp Hi).
Defined.

(** C7.  The 400 "Data preprocessing error" does not reach the caller.
    When the transformer fails in the model path, [preprocess_data] builds
    and raises the [HTTPException] that carries the cause, but
    [predict_price] calls it inside its own [try] and its handler catches
    every [Exception]: the caller receives the [error_fallback] answer. *)
Theorem predict_price_swallows_preprocessing_error
    (g : Globals) (mdl : Estimator) (pre : Transformer)
    (product_data : ProductData) (e : PyException) (w : World) :
  model g = Some mdl ->
  preprocessor g = Some pre ->
  transform pre (single_row_frame product_data) = inl e ->
  exists w1 w',
    preprocess_data g product_data w
    = (inl (HTTPException 400 ("Data preprocessing error: " ++ exn_str e)), w1)
    /\ predict_price g product_data w
       = (inr (error_fallback_response product_data w1), w').
Proof.
  intros Hm Hpre Htr.
  pose proof (preprocess_data_transform_error g product_data pre e w Hpre Htr) as P.
  eexists. eexists. split; [exact P |].
  unfold predict_price, try_except.
  rewrite Hm. unfold bind at 1. rewrite P.
  apply predict_price_handler.
Qed.

Lemma predict_price_swallows_preprocessing_error_witness :
  let g :=
    {| model := Some constant_model; preprocessor := Some failing_preprocessor |} in
  let e := Raised "ValueError" "Found unknown categories" in
  model g = Some constant_model
  /\ preprocessor g = Some failing_preprocessor
  /\ transform failing_preprocessor (single_row_frame dairy_expired) = inl e
  /\ exists w1 w',
       preprocess_data g dairy_expired boot
       = (inl (HTTPException 400 ("Data preprocessing error: " ++ exn_str e)), w1)
       /\ predict_price g dairy_expired boot
          = (inr (error_fallback_response dairy_expired w1), w').
Proof.
  intros g e.
  assert (Hm : model g = Some constant_model) by reflexivity.
  assert (Hp : preprocessor g = Some failing_preprocessor) by reflexivity.
  assert (Ht : transform failing_preprocessor (single_row_frame dairy_expired)
               = inl e) by reflexivity.
  split; [exact Hm |]. split; [exact Hp |]. split; [exact Ht |].
  exact (predict_price_swallows_preprocessing_error
           g constant_model failing_preprocessor dairy_expired e boot Hm Hp Ht).
Defined.

(** ** The stock tags *)

Section StockTags.

Variable product_data : ProductData.

(** The stock block holds at most one tag, and the two tags in question
    come from no other block. *)
Lemma stock_factors_length : (length (stock_factors product_data) <= 1)%nat.
Proof.
  unfold stock_factors.
  branches; simpl; lia.
Qed.

Lemma stock_factors_not_both :
  ~ (In "low_stock" (stock_factors product_data)
     /\ In "critical_stock" (stock_factors product_data)).
Proof.
  unfold stock_factors.
  branches; simpl; intros [L C]; intuition discriminate.
Qed.

Lemma stock_tag_only_from_stock_block (tag : string) :
  tag = "low_stock" \/ tag = "critical_stock" ->
  In tag (pricing_factors product_data) ->
  In tag (stock_factors product_data).
Proof.
  unfold pricing_factors. rewrite !in_app_iff.
  intros T [H | [H | [H | [H | H]]]]; [| exact H | | |]; exfalso; revert H.
  - unfold expiry_factors.
    branches; simpl; destruct T as [-> | ->]; intuition discriminate.
  - unfold demand_factors.
    branches; simpl; destruct T as [-> | ->]; intuition discriminate.
  - unfold sales_factors.
    branches; simpl; destruct T as [-> | ->]; intuition discriminate.
  - unfold combined_factors. rewrite in_app_iff.
    branches; simpl; destruct T as [-> | ->]; intuition discriminate.
Qed.

Lemma pricing_factors_not_both :
  ~ (In "low_stock" (pricing_factors product_data)
     /\ In "critical_stock" (pricing_factors product_data)).
Proof.
  intros [L C]. apply stock_factors_not_both. split.
  - apply stock_tag_only_from_stock_block; [left; reflexivity | exact L].
  - apply stock_tag_only_from_stock_block; [right; reflexivity | exact C].
Qed.

(** The same for the tags of any answer of [predict_price]. *)
Lemma answer_factors_not_both (g : Globals) (w w' : World)
    (r : PredictionResponse) (fs : list string) :
  predict_price g product_data w = (inr r, w') ->
  factors r = Some fs ->
  ~ (In "low_stock" fs /\ In "critical_stock" fs).
Proof.
  intros H F.
  destruct (predict_price_returns g product_data w) as (r0 & w0 & E & Hf).
  rewrite E in H. injection H as -> ->. rewrite F in Hf.
  destruct Hf as [Hf | [Hf | Hf]]; injection Hf as ->.
  - simpl. intuition discriminate.
  - simpl. intuition discriminate.
  - apply pricing_factors_not_both.
Qed.

End StockTags.

(** C8, as stated, fails: no product and no state of the service give a
    prediction whose tags contain both [low_stock] and [critical_stock]. *)
Lemma no_prediction_has_low_and_critical_stock :
  ~ (exists (g : Globals) (product_data : ProductData) (w w' : World)
            (r : PredictionResponse) (fs : list string),
        predict_price g product_data w = (inr r, w')
        /\ factors r = Some fs
        /\ In "low_stock" fs
        /\ In "critical_stock" fs).
Proof.
  intros (g & p & w & w' & r & fs & H & F & L & C).
  exact (answer_factors_not_both p g w w' r fs H F (conj L C)).
Qed.

(** C8, amended.  The stock tags are chosen by one [if]/[elif] chain, so
    the stock block contributes at most one tag, and the tags of a
    prediction never contain both [low_stock] and [critical_stock]. *)
Theorem stock_tags_are_exclusive
    (g : Globals) (product_data : ProductData) (w w' : World)
    (r : PredictionResponse) (fs : list string) :
  predict_price g product_data w = (inr r, w') ->
  factors r = Some fs ->
  (length (stock_factors product_data) <= 1)%nat
  /\ ~ (In "low_stock" fs /\ In "critical_stock" fs).
Proof.
  intros H F. split.
  - apply stock_factors_length.
  - exact (answer_factors_not_both product_data g w w' r fs H F).
Qed.

Lemma stock_tags_are_exclusive_witness :
  let g := {| model := Some constant_model; preprocessor := None |} in
  let fs := ["low_stock"; "high_demand"; "scarcity_premium"] in
  let r :=
    {| recommended_price := 37 # 2;
       confidence := Some (37 # 40);
       factors := Some fs;
       method := "ml_model";
       timestamp := 0%nat |} in
  let w' := {| clock := 1; log := [] |} in
  predict_price g (fresh_seafood 3) boot = (inr r, w')
  /\ factors r = Some fs
  /\ (length (stock_factors (fresh_seafood 3)) <= 1)%nat
  /\ ~ (In "low_stock" fs /\ In "critical_stock" fs).
Proof.
  intros g fs r w'.
  assert (H : predict_price g (fresh_seafood 3) boot = (inr r, w'))
    by (vm_compute; reflexivity).
  assert (F : factors r = Some fs) by reflexivity.
  split; [exact H |]. split; [exact F |].
  exact (stock_tags_are_exclusive g (fresh_seafood 3) boot w' r fs H F).
Defined.

(** ** The batch endpoint *)

Section Batch.

Variable g : Globals.

(** The loop never raises: it extends the list built so far by one answer
    of [predict_price] per product, in the order of the products. *)
Lemma batch_loop_returns (todo : list ProductData) :
  forall (acc : list PredictionResponse) (w : World),
  exists rs w',
    batch_loop g todo acc w = (inr (acc ++ rs)%list, w')
    /\ Forall2 (answers g) todo rs.
Proof.
  induction todo as [| p todo IH]; intros acc w.
  - exists [], w. simpl. rewrite app_nil_r. split; [reflexivity | constructor].
  - destruct (predict_price_returns g p w) as (r & w1 & E & _).
    destruct (IH (acc ++ [r])%list w1) as (rs & w2 & E2 & F2).
    exists (r :: rs), w2. split.
    + cbn [batch_loop]. unfold bind at 1, try_except. unfold bind at 1.
      rewrite E. unfold ret at 1. rewrite E2.
      rewrite <- app_assoc. reflexivity.
    + constructor; [exists w, w1; exact E | exact F2].
Qed.

End Batch.

(** C9.  For every request, also the empty one, [batch_predict] returns
    without raising; the predictions are as many as the products and the
    i-th prediction is an answer of [predict_price] for the i-th product;
    [total_processed] is that number. *)
Theorem batch_predict_length_and_order
    (g : Globals) (request : BatchPredictRequest) (w : World) :
  exists (resp : BatchPredictionResponse) (w' : World),
    batch_predict g request w = (inr resp, w')
    /\ length (predictions resp) = length (products request)
    /\ total_processed resp = length (products request)
    /\ Forall2 (answers g) (products request) (predictions resp).
Proof.
  destruct (batch_loop_returns g (products request) [] w) as (rs & w1 & E & F).
  simpl in E.
  pose proof (Forall2_length _ _ _ F) as L.
  eexists. eexists. split.
  - unfold batch_predict, try_except. unfold bind at 1. rewrite E.
    unfold bind, now, ret. reflexivity.
  - simpl. auto.
Qed.

(** The empty request. *)
Example batch_predict_empty (g : Globals) (w : World) :
  batch_predict g {| products := [] |} w
  = (inr {| predictions := []; total_processed := 0; batch_timestamp := clock w |},
     {| clock := S (clock w); log := log w |}).
Proof. reflexivity. Qed.

(** ** The synthetic label generator *)

Section Generator.

(** The four stages that update [price_multiplier] draw at most one sample
    and return. *)
Lemma target_expiry_stage_returns (d : Z) (m : Q) (r : RandomState) :
  exists v r', target_expiry_stage d m r = (inr v, r').
Proof. unfold target_expiry_stage. branches; eexists; eexists; reflexivity. Qed.

Lemma target_demand_stage_returns (s m : Q) (r : RandomState) :
  exists v r', target_demand_stage s m r = (inr v, r').
Proof. unfold target_demand_stage. branches; eexists; eexists; reflexivity. Qed.

Lemma target_stock_stage_returns (n : Z) (m : Q) (r : RandomState) :
  exists v r', target_stock_stage n m r = (inr v, r').
Proof. unfold target_stock_stage. branches; eexists; eexists; reflexivity. Qed.

Lemma target_sales_stage_returns (h m : Q) (r : RandomState) :
  exists v r', target_sales_stage h m r = (inr v, r').
Proof. unfold target_sales_stage. branches; eexists; eexists; reflexivity. Qed.

Lemma category_multipliers_returns (r : RandomState) :
  exists d r', category_multipliers r = (inr d, r').
Proof. eexists. eexists. reflexivity. Qed.

(** An update [price *= rhs] of the unbound [price] raises before [rhs]
    is looked at. *)
Lemma imul_fast_unbound (name : string) (rhs : M RandomState Q) (r : RandomState) :
  imul_fast name None rhs r = (inl (UnboundLocalError name), r).
Proof. reflexivity. Qed.

End Generator.

(** C5.  [calculate_target_price] never returns a price.  Its stages
    compute [price_multiplier], but the result is built in a second local,
    [price], that is updated before it is ever assigned: on every input and
    for every random source the call raises [UnboundLocalError] for
    [price], at the historical-sales block or, failing that, at the
    category adjustment. *)
Theorem calculate_target_price_raises
    (original_price : Q) (days_to_expiry stock_level : Z) (demand_score : Q)
    (category : string) (historical_sales : Q) (day_of_week : string)
    (r : RandomState) :
  exists r',
    calculate_target_price original_price days_to_expiry stock_level
      demand_score category historical_sales day_of_week r
    = (inl (UnboundLocalError "price"), r').
Proof.
  unfold calculate_target_price. cbv zeta.
  unfold bind at 1.
  destruct (target_expiry_stage_returns days_to_expiry 1.0 r) as (m1 & r1 & ->).
  unfold bind at 1.
  destruct (target_demand_stage_returns demand_score m1 r1) as (m2 & r2 & ->).
  unfold bind at 1.
  destruct (target_stock_stage_returns stock_level m2 r2) as (m3 & r3 & ->).
  unfold bind at 1.
  destruct (target_sales_stage_returns historical_sales m3 r3) as (m4 & r4 & ->).
  unfold bind at 1.
  destruct (Py.lt historical_sales 20).
  { rewrite imul_fast_unbound. eexists. reflexivity. }
  destruct (Py.lt 100 historical_sales).
  { rewrite imul_fast_unbound. eexists. reflexivity. }
  unfold ret at 1. unfold bind at 1.
  destruct (category_multipliers_returns r4) as (d & r5 & ->).
  unfold bind at 1. rewrite imul_fast_unbound. eexists. reflexivity.
Qed.

(** An ordinary sample of the training set: a dairy product at 10.00,
    five days from expiry, fifty in stock, fifty sold, on a Monday. *)
Example calculate_target_price_sample :
  fst (calculate_target_price 10 5 50 0.5 "dairy" 50 "monday" seeded)
  = inl (UnboundLocalError "price").
Proof. vm_compute. reflexivity. Qed.

(** * Further properties of the calculator *)

Section Tests.

(** The tests of the chains, with the fact each outcome brings. *)
Lemma lt_spec (x y : Q) : BoolSpec (x < y) (y <= x) (Py.lt x y).
Proof.
  destruct (Py.lt x y) eqn:E; constructor.
  - apply lt_true_iff, E.
  - apply lt_false_iff, E.
Qed.

End Tests.

Ltac split_tests :=
  repeat match goal with
    | |- context [if Py.lt ?x ?y then _ else _] => destruct (lt_spec x y)
    | |- context [if (?a <=? ?b)%Z then _ else _] => destruct (Z.leb_spec a b)
    | |- context [if (?a <? ?b)%Z then _ else _] => destruct (Z.ltb_spec a b)
    end.

Section Monotone.

Variables p1 p2 : ProductData.
Variables m1 m2 : Q.
Hypothesis m1_nonneg : 0 <= m1.
Hypothesis m1_le_m2 : m1 <= m2.

Lemma expiry_stage_mono :
  (days_to_expiry p1 <= days_to_expiry p2)%Z ->
  expiry_stage p1 m1 <= expiry_stage p2 m2.
Proof.
  intros H. unfold expiry_stage. cbv zeta. split_tests; try lia; lra.
Qed.

Lemma demand_stage_mono :
  demand_score p1 <= demand_score p2 ->
  demand_stage p1 m1 <= demand_stage p2 m2.
Proof.
  intros H. unfold demand_stage. cbv zeta. split_tests; lra.
Qed.

Lemma stock_stage_mono :
  (stock_level p2 <= stock_level p1)%Z ->
  stock_stage p1 m1 <= stock_stage p2 m2.
Proof.
  intros H. unfold stock_stage. cbv zeta. split_tests; try lia; lra.
Qed.

Lemma sales_velocity_stage_mono :
  historical_sales p1 <= historical_sales p2 ->
  sales_velocity_stage p1 m1 <= sales_velocity_stage p2 m2.
Proof.
  intros H. unfold sales_velocity_stage. cbv zeta. split_tests; lra.
Qed.

Lemma category_stage_mono :
  Py.lower (category p1) = Py.lower (category p2) ->
  category_stage p1 m1 <= category_stage p2 m2.
Proof.
  intros H. unfold category_stage. cbv zeta. rewrite H.
  destruct (category_multiplier_range (Py.lower (category p2))) as [L _].
  apply Qmult_le_compat_r; assumption.
Qed.

Lemma bound_multiplier_mono :
  (days_to_expiry p1 <= days_to_expiry p2)%Z ->
  demand_score p1 <= demand_score p2 ->
  (stock_level p2 <= stock_level p1)%Z ->
  bound_multiplier p1 m1 <= bound_multiplier p2 m2.
Proof.
  intros Hd Hs Hn. unfold bound_multiplier. cbv zeta.
  assert (F :
    (if (0 <? days_to_expiry p1)%Z && Py.lt 0.5 (demand_score p1)
     then Py.max m1 0.70 else m1)
    <= (if (0 <? days_to_expiry p2)%Z && Py.lt 0.5 (demand_score p2)
        then Py.max m2 0.70 else m2)).
  { destruct (Z.ltb_spec 0 (days_to_expiry p1));
      destruct (Z.ltb_spec 0 (days_to_expiry p2)); try lia;
      destruct (lt_spec 0.5 (demand_score p1));
      destruct (lt_spec 0.5 (demand_score p2)); cbn [andb]; try lra;
      try (apply max_lub; [eapply Qle_trans; [exact m1_le_m2 | apply max_ge_l]
                          | apply max_ge_r]);
      try (eapply Qle_trans; [exact m1_le_m2 | apply max_ge_l]). }
  destruct (Z.ltb_spec 5 (stock_level p1));
    destruct (Z.ltb_spec 5 (stock_level p2)); try lia.
  - destruct (min_cases
                (if (0 <? days_to_expiry p2)%Z && Py.lt 0.5 (demand_score p2)
                 then Py.max m2 0.70 else m2) 1.35) as [[_ ->] | [_ ->]].
    + apply min_le_r.
    + eapply Qle_trans; [apply min_le_l | exact F].
  - eapply Qle_trans; [apply min_le_l | exact F].
  - exact F.
Qed.

End Monotone.

Section CalculatorMore.

(** The multiplier reads neither [current_price] nor [day_of_week], and
    the category only through its lower-case spelling. *)
Lemma final_multiplier_ext (p1 p2 : ProductData) :
  days_to_expiry p1 = days_to_expiry p2 ->
  stock_level p1 = stock_level p2 ->
  demand_score p1 = demand_score p2 ->
  historical_sales p1 = historical_sales p2 ->
  Py.lower (category p1) = Py.lower (category p2) ->
  final_multiplier p1 = final_multiplier p2.
Proof.
  intros Hd Hn Hs Hh Hc.
  unfold final_multiplier, bound_multiplier, category_stage,
    sales_velocity_stage, stock_stage, demand_stage, expiry_stage.
  rewrite Hd, Hn, Hs, Hh, Hc. reflexivity.
Qed.

Lemma final_multiplier_nonneg (p : ProductData) : 0 <= final_multiplier p.
Proof.
  unfold final_multiplier, bound_multiplier.
  pose proof (staged_multiplier_range p) as [R0 _]. cbv zeta in R0 |- *.
  set (r := category_stage _ _) in *.
  assert (F : 0 <= (if (0 <? days_to_expiry p)%Z && Py.lt 0.5 (demand_score p)
                    then Py.max r 0.70 else r)).
  { destruct (_ && _); [| exact R0].
    eapply Qle_trans; [exact R0 | apply max_ge_l]. }
  destruct (5 <? stock_level p)%Z; [| exact F].
  destruct (min_cases
              (if (0 <? days_to_expiry p)%Z && Py.lt 0.5 (demand_score p)
               then Py.max r 0.70 else r) 1.35) as [[_ ->] | [_ ->]];
    [lra | exact F].
Qed.

Lemma final_multiplier_mono (p1 p2 : ProductData) :
  (days_to_expiry p1 <= days_to_expiry p2)%Z ->
  demand_score p1 <= demand_score p2 ->
  (stock_level p2 <= stock_level p1)%Z ->
  historical_sales p1 <= historical_sales p2 ->
  Py.lower (category p1) = Py.lower (category p2) ->
  final_multiplier p1 <= final_multiplier p2.
Proof.
  intros Hd Hs Hn Hh Hc. unfold final_multiplier. cbv zeta.
  assert (H0 : 0 <= 1.0) by lra.
  pose proof (expiry_stage_range p1 1.0 H0) as [E0 _].
  pose proof (demand_stage_range p1 _ E0) as [D0 _].
  pose proof (stock_stage_range p1 _ D0) as [S0 _].
  pose proof (sales_velocity_stage_range p1 _ S0) as [V0 _].
  pose proof (category_stage_range p1 _ V0) as [C0 _].
  apply bound_multiplier_mono; try assumption.
  apply category_stage_mono; try assumption.
  apply sales_velocity_stage_mono; try assumption.
  apply stock_stage_mono; try assumption.
  apply demand_stage_mono; try assumption.
  apply expiry_stage_mono; try assumption. apply Qle_refl.
Qed.

(** The price is the current price times an effective multiplier. *)
Lemma price_factorises (p : ProductData) :
  0 <= current_price p ->
  calculate_rule_based_price p
  == current_price p * Py.max (final_multiplier p) 0.05.
Proof.
  intros Hp. unfold calculate_rule_based_price. cbv zeta.
  destruct (max_cases (final_multiplier p) 0.05) as [[H ->] | [H ->]];
    destruct (max_cases (current_price p * final_multiplier p)
                (current_price p * 0.05)) as [[H' ->] | [H' ->]];
    try reflexivity.
  - apply Qle_antisym; [| exact H'].
    rewrite !(Qmult_comm (current_price p)).
    apply Qmult_le_compat_r; [apply Qlt_le_weak, H | exact Hp].
  - apply Qle_antisym; [| apply Qlt_le_weak, H'].
    rewrite !(Qmult_comm (current_price p)).
    apply Qmult_le_compat_r; [exact H | exact Hp].
Qed.

End CalculatorMore.

(** X1.  The calculator is monotone: of two products at the same price
    and in the same category, the one that is no closer to expiry, no less
    in demand, no more in stock and no slower in sales is never priced
    lower. *)
Theorem rule_based_price_monotone (p1 p2 : ProductData) :
  0 <= current_price p1 ->
  current_price p1 == current_price p2 ->
  Py.lower (category p1) = Py.lower (category p2) ->
  (days_to_expiry p1 <= days_to_expiry p2)%Z ->
  demand_score p1 <= demand_score p2 ->
  (stock_level p2 <= stock_level p1)%Z ->
  historical_sales p1 <= historical_sales p2 ->
  calculate_rule_based_price p1 <= calculate_rule_based_price p2.
Proof.
  intros Hp Hpp Hc Hd Hs Hn Hh.
  assert (Hp2 : 0 <= current_price p2) by (rewrite <- Hpp; exact Hp).
  rewrite (price_factorises p1 Hp), (price_factorises p2 Hp2), Hpp.
  rewrite !(Qmult_comm (current_price p2)).
  apply Qmult_le_compat_r; [| exact Hp2].
  pose proof (final_multiplier_mono p1 p2 Hd Hs Hn Hh Hc) as Hm.
  apply max_lub.
  - eapply Qle_trans; [exact Hm | apply max_ge_l].
  - apply max_ge_r.
Qed.

Lemma rule_based_price_monotone_witness :
  0 <= current_price (fresh_seafood 8)
  /\ current_price (fresh_seafood 8) == current_price (fresh_seafood 3)
  /\ Py.lower (category (fresh_seafood 8)) = Py.lower (category (fresh_seafood 3))
  /\ (days_to_expiry (fresh_seafood 8) <= days_to_expiry (fresh_seafood 3))%Z
  /\ demand_score (fresh_seafood 8) <= demand_score (fresh_seafood 3)
  /\ (stock_level (fresh_seafood 3) <= stock_level (fresh_seafood 8))%Z
  /\ historical_sales (fresh_seafood 8) <= historical_sales (fresh_seafood 3)
  /\ calculate_rule_based_price (fresh_seafood 8)
     <= calculate_rule_based_price (fresh_seafood 3).
Proof.
  assert (H1 : 0 <= current_price (fresh_seafood 8)) by (simpl; lra).
  assert (H2 : current_price (fresh_seafood 8) == current_price (fresh_seafood 3))
    by reflexivity.
  assert (H3 : Py.lower (category (fresh_seafood 8))
               = Py.lower (category (fresh_seafood 3))) by reflexivity.
  assert (H4 : (days_to_expiry (fresh_seafood 8)
                <= days_to_expiry (fresh_seafood 3))%Z) by (simpl; lia).
  assert (H5 : demand_score (fresh_seafood 8) <= demand_score (fresh_seafood 3))
    by (simpl; lra).
  assert (H6 : (stock_level (fresh_seafood 3)
                <= stock_level (fresh_seafood 8))%Z) by (simpl; lia).
  assert (H7 : historical_sales (fresh_seafood 8)
               <= historical_sales (fresh_seafood 3)) by (simpl; lra).
  split; [exact H1 |]. split; [exact H2 |]. split; [exact H3 |].
  split; [exact H4 |]. split; [exact H5 |]. split; [exact H6 |].
  split; [exact H7 |].
  exact (rule_based_price_monotone (fresh_seafood 8) (fresh_seafood 3)
           H1 H2 H3 H4 H5 H6 H7).
Defined.

(** X2.  An unexpired product whose demand score exceeds 0.5 is never
    priced below 70% of its current price. *)
Theorem fresh_wanted_price_floor (product_data : ProductData) :
  0 <= current_price product_data ->
  (0 < days_to_expiry product_data)%Z ->
  0.5 < demand_score product_data ->
  0.70 * current_price product_data <= calculate_rule_based_price product_data.
Proof.
  intros Hp Hd Hs.
  assert (Hm : 0.70 <= final_multiplier product_data).
  { unfold final_multiplier, bound_multiplier. cbv zeta.
    set (r := category_stage _ _).
    apply Z.ltb_lt in Hd. apply lt_true_iff in Hs. rewrite Hd, Hs. cbn [andb].
    destruct (5 <? stock_level product_data)%Z; [| apply max_ge_r].
    destruct (min_cases (Py.max r 0.70) 1.35) as [[_ ->] | [_ ->]];
      [lra | apply max_ge_r]. }
  unfold calculate_rule_based_price. cbv zeta.
  eapply Qle_trans; [| apply max_ge_l].
  rewrite (Qmult_comm (current_price product_data)).
  apply Qmult_le_compat_r; assumption.
Qed.

Lemma fresh_wanted_price_floor_witness :
  let p := mkProductData 10.00 1 400 0.6 "bakery" 2 "monday" in
  0 <= current_price p
  /\ (0 < days_to_expiry p)%Z
  /\ 0.5 < demand_score p
  /\ 0.70 * current_price p <= calculate_rule_based_price p.
Proof.
  intros p.
  assert (H1 : 0 <= current_price p) by (simpl; lra).
  assert (H2 : (0 < days_to_expiry p)%Z) by (simpl; lia).
  assert (H3 : 0.5 < demand_score p) by (simpl; lra).
  split; [exact H1 |]. split; [exact H2 |]. split; [exact H3 |].
  exact (fresh_wanted_price_floor p H1 H2 H3).
Defined.

(** * Rounding *)

Section Rounding.

Lemma round_half_even_cases (y : Q) :
  let f := Qfloor y in
  (y - inject_Z f < 1 # 2 /\ Py.round_half_even y = f)
  \/ (1 # 2 <= y - inject_Z f /\ y - inject_Z f <= 1 # 2
      /\ (Py.round_half_even y = f \/ Py.round_half_even y = (f + 1)%Z))
  \/ (1 # 2 < y - inject_Z f /\ Py.round_half_even y = (f + 1)%Z).
Proof.
  cbv zeta. unfold Py.round_half_even. cbv zeta.
  destruct (y - inject_Z (Qfloor y) ?= 1 # 2) eqn:E.
  - apply Qeq_alt in E. right. left. split; [| split].
    + rewrite E. apply Qle_refl.
    + rewrite E. apply Qle_refl.
    + destruct (Z.even (Qfloor y)); auto.
  - apply Qlt_alt in E. left. auto.
  - apply Qgt_alt in E. right. right. auto.
Qed.

Lemma floor_bounds (y : Q) :
  inject_Z (Qfloor y) <= y /\ y < inject_Z (Qfloor y) + 1.
Proof.
  split; [apply Qfloor_le |].
  pose proof (Qlt_floor y) as H. rewrite inject_Z_plus in H. exact H.
Qed.

(** Rounding moves a number by at most one half. *)
Lemma round_half_even_error (y : Q) :
  - (1 # 2) <= inject_Z (Py.round_half_even y) - y
  /\ inject_Z (Py.round_half_even y) - y <= 1 # 2.
Proof.
  pose proof (floor_bounds y) as [L U].
  destruct (round_half_even_cases y) as [[H ->] | [[H1 [H2 [-> | ->]]] | [H ->]]];
    rewrite ?inject_Z_plus; change (inject_Z 1) with 1; lra.
Qed.

(** Rounding never crosses an integer. *)
Lemma round_half_even_ge (k : Z) (y : Q) :
  inject_Z k <= y -> (k <= Py.round_half_even y)%Z.
Proof.
  intros H.
  assert (F : (k <= Qfloor y)%Z).
  { rewrite <- (Qfloor_Z k). apply Qfloor_resp_le, H. }
  destruct (round_half_even_cases y) as [[_ ->] | [[_ [_ [-> | ->]]] | [_ ->]]];
    lia.
Qed.

Lemma round_half_even_le (k : Z) (y : Q) :
  y <= inject_Z k -> (Py.round_half_even y <= k)%Z.
Proof.
  intros H.
  assert (F : (Qfloor y <= k)%Z).
  { rewrite <- (Qfloor_Z k). apply Qfloor_resp_le, H. }
  destruct (Z.eq_dec (Qfloor y) k) as [E | N].
  - pose proof (floor_bounds y) as [L U]. rewrite E in L, U.
    destruct (round_half_even_cases y) as [[_ ->] | [[H1 _] | [H1 _]]];
      [lia | rewrite E in H1; lra | rewrite E in H1; lra].
  - destruct (round_half_even_cases y) as [[_ ->] | [[_ [_ [-> | ->]]] | [_ ->]]];
      lia.
Qed.

Lemma scale_pos (ndigits : nat) : 0 < inject_Z (10 ^ Z.of_nat ndigits).
Proof.
  assert (H : (0 < 10 ^ Z.of_nat ndigits)%Z) by (apply Z.pow_pos_nonneg; lia).
  unfold Qlt. simpl. lia.
Qed.

Lemma round_value (x : Q) (ndigits : nat) :
  Py.round x ndigits
  == inject_Z (Py.round_half_even (x * inject_Z (10 ^ Z.of_nat ndigits)))
     / inject_Z (10 ^ Z.of_nat ndigits).
Proof. unfold Py.round. cbv zeta. apply Qred_correct. Qed.

(** [round(x, n)] is within half a unit of the n-th decimal of [x]. *)
Lemma round_error (x : Q) (ndigits : nat) :
  let s := inject_Z (10 ^ Z.of_nat ndigits) in
  - (1 # 2) <= (Py.round x ndigits - x) * s
  /\ (Py.round x ndigits - x) * s <= 1 # 2.
Proof.
  cbv zeta. pose proof (scale_pos ndigits) as S.
  pose proof (round_half_even_error (x * inject_Z (10 ^ Z.of_nat ndigits)))
    as [L U].
  rewrite round_value.
  set (s := inject_Z (10 ^ Z.of_nat ndigits)) in *.
  set (r := inject_Z (Py.round_half_even (x * s))) in *.
  assert (E : (r / s - x) * s == r - x * s) by (field; lra).
  rewrite E. split; assumption.
Qed.

(** A bound that is itself a multiple of the last decimal survives
    rounding. *)
Lemma round_ge (k : Z) (x : Q) (ndigits : nat) :
  inject_Z k / inject_Z (10 ^ Z.of_nat ndigits) <= x ->
  inject_Z k / inject_Z (10 ^ Z.of_nat ndigits) <= Py.round x ndigits.
Proof.
  intros H. pose proof (scale_pos ndigits) as S. rewrite round_value.
  set (s := inject_Z (10 ^ Z.of_nat ndigits)) in *.
  assert (E : inject_Z k / s * s == inject_Z k) by (field; lra).
  assert (K : inject_Z k <= x * s).
  { rewrite <- E. apply Qmult_le_compat_r; [exact H | lra]. }
  apply round_half_even_ge in K.
  apply Qle_shift_div_l; [exact S |].
  rewrite E. rewrite <- Zle_Qle. exact K.
Qed.

Lemma round_le (k : Z) (x : Q) (ndigits : nat) :
  x <= inject_Z k / inject_Z (10 ^ Z.of_nat ndigits) ->
  Py.round x ndigits <= inject_Z k / inject_Z (10 ^ Z.of_nat ndigits).
Proof.
  intros H. pose proof (scale_pos ndigits) as S. rewrite round_value.
  set (s := inject_Z (10 ^ Z.of_nat ndigits)) in *.
  assert (E : inject_Z k / s * s == inject_Z k) by (field; lra).
  assert (K : x * s <= inject_Z k).
  { rewrite <- E. apply Qmult_le_compat_r; [exact H | lra]. }
  apply round_half_even_le in K.
  apply Qle_shift_div_r; [exact S |].
  rewrite E. rewrite <- Zle_Qle. exact K.
Qed.

End Rounding.

(** * Further properties of preprocessing *)

Section Preprocessing.

Variable g : Globals.
Variable product_data : ProductData.

(** The two outcomes of [preprocess_data]. *)
Lemma preprocess_data_cases (w : World) :
  (exists x,
      preprocess_data g product_data w = (inr x, w)
      /\ match preprocessor g with
         | Some pre => transform pre (single_row_frame product_data) = inr x
         | None => x = manual_preprocessing (single_row_frame product_data)
         end)
  \/ (exists pre cause,
         preprocessor g = Some pre
         /\ transform pre (single_row_frame product_data) = inl cause
         /\ preprocess_data g product_data w
            = (inl (HTTPException 400
                      ("Data preprocessing error: " ++ exn_str cause)),
               {| clock := clock w;
                  log := (log w ++ [("Error preprocessing data: "
                                     ++ exn_str cause)%string])%list |})).
Proof.
  unfold preprocess_data, try_except, bind, lift, ret. cbv zeta.
  destruct (preprocessor g) as [pre |].
  - destruct (transform pre (single_row_frame product_data)) as [e | x] eqn:E.
    + right. exists pre, e. auto.
    + left. exists x. auto.
  - left. eexists. split; reflexivity.
Qed.

End Preprocessing.

(** X6.  Manual preprocessing turns every row into exactly 19 features
    and keeps the number and order of rows; the first five features are
    the numeric columns. *)
Theorem manual_preprocessing_shape (data : DataFrame) :
  length (manual_preprocessing data) = length data
  /\ Forall2
       (fun row features =>
          length features = 19%nat
          /\ firstn 5 features
             = [current_price row; inject_Z (days_to_expiry row);
                inject_Z (stock_level row); demand_score row;
                historical_sales row])
       data (manual_preprocessing data).
Proof.
  unfold manual_preprocessing. cbv zeta. split.
  - apply length_map.
  - induction data as [| row data IH]; simpl; constructor.
    + split; reflexivity.
    + exact IH.
Qed.

(** X7.  Manual preprocessing one-hot encodes the category in features
    5 to 11 and the day of the week in features 12 to 18: every such
    feature is 0 or 1, and each block sums to 1 when the value is one of
    the seven listed names and to 0 otherwise. *)
Theorem manual_preprocessing_one_hot (row : ProductData) :
  exists features,
    manual_preprocessing [row] = [features]
    /\ Forall (fun v => v = 0 \/ v = 1) (skipn 5 features)
    /\ Qsum (firstn 7 (skipn 5 features))
       == (if Py.contains (category row)
                ["bakery"; "dairy"; "fruits"; "meat"; "other"; "seafood";
                 "vegetables"]
           then 1 else 0)
    /\ Qsum (skipn 12 features)
       == (if Py.contains (day_of_week row)
                ["friday"; "monday"; "saturday"; "sunday"; "thursday";
                 "tuesday"; "wednesday"]
           then 1 else 0).
Proof.
  eexists. split; [reflexivity |].
  generalize (category row) as c, (day_of_week row) as d. intros c d.
  split; [| split].
  - cbn [skipn app map].
    repeat (constructor;
            [match goal with |- context [if ?b then _ else _] => destruct b end;
             auto |]).
    constructor.
  - cbn [skipn app map firstn Qsum fold_right Py.contains existsb].
    destruct (String.eqb_spec c "bakery") as [-> | _]; [reflexivity |].
    destruct (String.eqb_spec c "dairy") as [-> | _]; [reflexivity |].
    destruct (String.eqb_spec c "fruits") as [-> | _]; [reflexivity |].
    destruct (String.eqb_spec c "meat") as [-> | _]; [reflexivity |].
    destruct (String.eqb_spec c "other") as [-> | _]; [reflexivity |].
    destruct (String.eqb_spec c "seafood") as [-> | _]; [reflexivity |].
    destruct (String.eqb_spec c "vegetables") as [-> | _]; reflexivity.
  - cbn [skipn app map firstn Qsum fold_right Py.contains existsb].
    destruct (String.eqb_spec d "friday") as [-> | _]; [reflexivity |].
    destruct (String.eqb_spec d "monday") as [-> | _]; [reflexivity |].
    destruct (String.eqb_spec d "saturday") as [-> | _]; [reflexivity |].
    destruct (String.eqb_spec d "sunday") as [-> | _]; [reflexivity |].
    destruct (String.eqb_spec d "thursday") as [-> | _]; [reflexivity |].
    destruct (String.eqb_spec d "tuesday") as [-> | _]; [reflexivity |].
    destruct (String.eqb_spec d "wednesday") as [-> | _]; reflexivity.
Qed.

(** X8.  Without a fitted preprocessor, [preprocess_data] cannot fail:
    it returns a single row of 19 features, computed from the lower-cased
    category and day, and writes nothing to the log. *)
Theorem preprocess_data_manual
    (g : Globals) (product_data : ProductData) (w : World) :
  preprocessor g = None ->
  exists features,
    preprocess_data g product_data w = (inr [features], w)
    /\ length features = 19%nat
    /\ manual_preprocessing (single_row_frame product_data) = [features].
Proof.
  intros H. unfold preprocess_data, try_except, bind, ret. cbv zeta.
  rewrite H. eexists. split; [reflexivity |]. split; reflexivity.
Qed.

Lemma preprocess_data_manual_witness :
  preprocessor no_model = None
  /\ exists features,
       preprocess_data no_model dairy_expired boot = (inr [features], boot)
       /\ length features = 19%nat
       /\ manual_preprocessing (single_row_frame dairy_expired) = [features].
Proof.
  split; [reflexivity |].
  exact (preprocess_data_manual no_model dairy_expired boot eq_refl).
Defined.

(** X9.  The only exception that leaves [preprocess_data] is an
    [HTTPException] with status 400 whose detail names the exception of
    the transformer; it is raised only when a preprocessor is loaded, and
    exactly one line is logged. *)
Theorem preprocess_data_raises_only_400
    (g : Globals) (product_data : ProductData) (w w' : World) (e : PyException) :
  preprocess_data g product_data w = (inl e, w') ->
  exists pre cause,
    preprocessor g = Some pre
    /\ transform pre (single_row_frame product_data) = inl cause
    /\ e = HTTPException 400 ("Data preprocessing error: " ++ exn_str cause)
    /\ clock w' = clock w
    /\ log w' = (log w ++ [("Error preprocessing data: " ++ exn_str cause)%string])%list.
Proof.
  intros H.
  destruct (preprocess_data_cases g product_data w)
    as [(x & E & _) | (pre & cause & Hp & Ht & E)];
    rewrite E in H.
  - discriminate H.
  - injection H as <- <-. exists pre, cause. auto.
Qed.

Lemma preprocess_data_raises_only_400_witness :
  let g :=
    {| model := Some constant_model; preprocessor := Some failing_preprocessor |} in
  let e := HTTPException 400 "Data preprocessing error: Found unknown categories" in
  let w' :=
    {| clock := 0;
       log := ["Error preprocessing data: Found unknown categories"] |} in
  preprocess_data g dairy_expired boot = (inl e, w')
  /\ exists pre cause,
       preprocessor g = Some pre
       /\ transform pre (single_row_frame dairy_expired) = inl cause
       /\ e = HTTPException 400 ("Data preprocessing error: " ++ exn_str cause)
       /\ clock w' = clock boot
       /\ log w' = (log boot ++ [("Error preprocessing data: "
                                  ++ exn_str cause)%string])%list.
Proof.
  intros g e w'.
  assert (H : preprocess_data g dairy_expired boot = (inl e, w')) by reflexivity.
  split; [exact H |].
  exact (preprocess_data_raises_only_400 g dairy_expired boot w' e H).
Defined.

(** * Further properties of the single-product endpoint *)

Section EndpointMore.

Variable g : Globals.
Variable product_data : ProductData.

(** The three ways in which [predict_price] answers. *)
Lemma predict_price_cases (w : World) :
  (model g = None
   /\ predict_price g product_data w
      = (inr {| recommended_price :=
                  Py.round (calculate_rule_based_price product_data) 2;
                confidence := Some 0.6;
                factors := Some ["rule_based_fallback"];
                method := "rule_based";
                timestamp := clock w |},
         {| clock := S (clock w); log := log w |}))
  \/ (exists e w1,
         model g <> None
         /\ clock w1 = clock w
         /\ predict_price g product_data w
            = (inr (error_fallback_response product_data w1),
               after_error_fallback e w1))
  \/ (exists mdl x prediction,
         model g = Some mdl
         /\ preprocess_data g product_data w = (inr x, w)
         /\ predict_first mdl x = inr prediction
         /\ predict_price g product_data w
            = (inr {| recommended_price :=
                        Py.round
                          (Py.max prediction (current_price product_data * 0.1)) 2;
                      confidence :=
                        Some (Py.round
                                (Py.min 0.95
                                   (Py.max 0.6
                                      (1.0 - Qabs (prediction
                                                   - current_price product_data)
                                             / current_price product_data))) 3);
                      factors := Some (pricing_factors product_data);
                      method := "ml_model";
                      timestamp := clock w |},
               {| clock := S (clock w); log := log w |})).
Proof.
  unfold predict_price, try_except.
  destruct (model g) as [mdl |] eqn:Hm.
  - right. unfold bind at 1.
    destruct (preprocess_data_cases g product_data w)
      as [(x & E & _) | (pre & cause & _ & _ & E)]; rewrite E.
    + unfold bind at 1, lift.
      destruct (predict_first mdl x) as [e | y] eqn:Hi.
      * left. rewrite predict_price_handler. exists e, w.
        split; [discriminate |]. split; reflexivity.
      * right. exists mdl, x, y.
        split; [reflexivity |]. split; [reflexivity |]. split; [exact Hi |].
        unfold bind at 1. rewrite E. unfold bind at 1. rewrite Hi. reflexivity.
    + left. rewrite predict_price_handler. eexists. eexists.
      split; [discriminate |]. split; [| reflexivity]. reflexivity.
  - left. split; reflexivity.
Qed.

End EndpointMore.

Section RoundedPrices.

Lemma confidence_range (t : Q) :
  0.6 <= Py.round (Py.min 0.95 (Py.max 0.6 t)) 3
  /\ Py.round (Py.min 0.95 (Py.max 0.6 t)) 3 <= 0.95.
Proof.
  assert (A : 0.6 <= Py.min 0.95 (Py.max 0.6 t)).
  { destruct (min_cases 0.95 (Py.max 0.6 t)) as [[_ ->] | [_ ->]];
      [apply max_ge_l | lra]. }
  assert (B : Py.min 0.95 (Py.max 0.6 t) <= 0.95) by apply min_le_l.
  assert (E6 : 0.6 == inject_Z 600 / inject_Z (10 ^ Z.of_nat 3)) by reflexivity.
  assert (E95 : 0.95 == inject_Z 950 / inject_Z (10 ^ Z.of_nat 3)) by reflexivity.
  split.
  - rewrite E6 at 1. apply round_ge. rewrite <- E6. exact A.
  - rewrite E95 at 2. apply round_le. rewrite <- E95. exact B.
Qed.

End RoundedPrices.

(** X10.  [predict_price] never raises, whatever the collaborators do.
    Without a model the answer is [rule_based] with confidence 0.6; with a
    model it is either [ml_model] with a confidence between 0.6 and 0.95,
    or [rule_based_fallback] with confidence 0.5.  The clock is read
    exactly once. *)
Theorem predict_price_never_raises
    (g : Globals) (product_data : ProductData) (w : World) :
  exists r w',
    predict_price g product_data w = (inr r, w')
    /\ clock w' = S (clock w)
    /\ timestamp r = clock w
    /\ ((model g = None /\ method r = "rule_based" /\ confidence r = Some 0.6)
        \/ (model g <> None /\ method r = "rule_based_fallback"
            /\ confidence r = Some 0.5)
        \/ (model g <> None /\ method r = "ml_model"
            /\ exists c, confidence r = Some c /\ 0.6 <= c /\ c <= 0.95)).
Proof.
  destruct (predict_price_cases g product_data w)
    as [[Hm E] | [(e & w1 & Hm & Hc & E) | (mdl & x & y & Hm & _ & _ & E)]];
    rewrite E; eexists; eexists; (split; [reflexivity |]).
  - simpl. split; [reflexivity |]. split; [reflexivity |].
    left. split; [exact Hm |]. split; reflexivity.
  - simpl. rewrite Hc. split; [reflexivity |]. split; [reflexivity |].
    right. left. split; [exact Hm |]. split; reflexivity.
  - simpl. split; [reflexivity |]. split; [reflexivity |].
    right. right. split; [congruence |]. split; [reflexivity |].
    eexists. split; [reflexivity |]. apply confidence_range.
Qed.

(** * The factor tags *)

Section Tags.

Variable product_data : ProductData.

(** What each block can contribute, with the test that decides it. *)
Lemma expiry_factors_spec :
  let d := days_to_expiry product_data in
  ((d <= 0)%Z /\ expiry_factors product_data = ["expired_clearance"])
  \/ ((0 < d <= 1)%Z /\ expiry_factors product_data = ["critical_expiry"])
  \/ ((1 < d <= 3)%Z /\ expiry_factors product_data = ["expiry_proximity"])
  \/ ((3 < d <= 7)%Z /\ expiry_factors product_data = ["short_shelf_life"])
  \/ ((7 < d)%Z /\ expiry_factors product_data = []).
Proof.
  cbv zeta. unfold expiry_factors. cbv zeta. split_tests; auto 10 with zarith.
Qed.

Lemma stock_factors_spec :
  let n := stock_level product_data in
  ((200 < n)%Z /\ stock_factors product_data = ["excess_inventory"])
  \/ ((100 < n <= 200)%Z /\ stock_factors product_data = ["high_stock"])
  \/ ((n < 20)%Z /\ stock_factors product_data = ["low_stock"])
  \/ ((20 <= n <= 100)%Z /\ stock_factors product_data = []).
Proof.
  cbv zeta. unfold stock_factors. cbv zeta.
  split_tests; try lia; auto 10 with zarith.
Qed.

Lemma demand_factors_spec :
  let s := demand_score product_data in
  (s < 0.2 /\ demand_factors product_data = ["low_demand"])
  \/ (0.8 < s /\ demand_factors product_data = ["high_demand"])
  \/ (0.2 <= s /\ s <= 0.8 /\ demand_factors product_data = []).
Proof.
  cbv zeta. unfold demand_factors. cbv zeta.
  split_tests; try lra; auto 10.
Qed.

Lemma sales_factors_spec :
  let h := historical_sales product_data in
  (h < 10 /\ sales_factors product_data = ["slow_moving"])
  \/ (100 < h /\ sales_factors product_data = ["fast_moving"])
  \/ (10 <= h /\ h <= 100 /\ sales_factors product_data = []).
Proof.
  cbv zeta. unfold sales_factors. cbv zeta. split_tests; auto 10.
Qed.

Lemma combined_factors_spec :
  let d := days_to_expiry product_data in
  let n := stock_level product_data in
  let s := demand_score product_data in
  ((d <= 3)%Z /\ (100 < n)%Z
   /\ combined_factors product_data = ["urgent_clearance_needed"])
  \/ ((n < 20)%Z /\ 0.7 < s
      /\ combined_factors product_data = ["scarcity_premium"])
  \/ combined_factors product_data = [].
Proof.
  cbv zeta. unfold combined_factors.
  destruct (Z.leb_spec (days_to_expiry product_data) 3);
    destruct (Z.ltb_spec 100 (stock_level product_data));
    destruct (Z.ltb_spec (stock_level product_data) 20);
    destruct (lt_spec 0.7 (demand_score product_data));
    cbn [andb app]; try lia; auto 10.
Qed.

End Tags.

Section TagLists.

(** A block of at most one tag in front of a duplicate-free list with a
    disjoint vocabulary. *)
Lemma block_app (A B va vb : list string) :
  (length A <= 1)%nat ->
  incl A va ->
  NoDup B ->
  incl B vb ->
  (forall x, In x va -> In x vb -> False) ->
  NoDup (A ++ B) /\ incl (A ++ B) (va ++ vb).
Proof.
  intros HA Ha HB Hb D. split.
  - destruct A as [| a [| a' A]]; simpl in *; [exact HB | | lia].
    constructor; [| exact HB].
    intros Hin. apply list_elem_of_In in Hin.
    apply (D a); [apply Ha; left; reflexivity | apply Hb, Hin].
  - apply incl_app; [apply incl_appl, Ha | apply incl_appr, Hb].
Qed.

Variable product_data : ProductData.

Lemma expiry_block :
  (length (expiry_factors product_data) <= 1)%nat
  /\ incl (expiry_factors product_data)
       ["expired_clearance"; "critical_expiry"; "expiry_proximity";
        "short_shelf_life"].
Proof.
  destruct (expiry_factors_spec product_data)
    as [[_ ->] | [[_ ->] | [[_ ->] | [[_ ->] | [_ ->]]]]];
    (split; [simpl; lia | intros x Hx; simpl in *; tauto]).
Qed.

Lemma stock_block :
  (length (stock_factors product_data) <= 1)%nat
  /\ incl (stock_factors product_data)
       ["excess_inventory"; "high_stock"; "low_stock"].
Proof.
  destruct (stock_factors_spec product_data)
    as [[_ ->] | [[_ ->] | [[_ ->] | [_ ->]]]];
    (split; [simpl; lia | intros x Hx; simpl in *; tauto]).
Qed.

Lemma demand_block :
  (length (demand_factors product_data) <= 1)%nat
  /\ incl (demand_factors product_data) ["low_demand"; "high_demand"].
Proof.
  destruct (demand_factors_spec product_data)
    as [[_ ->] | [[_ ->] | [_ [_ ->]]]];
    (split; [simpl; lia | intros x Hx; simpl in *; tauto]).
Qed.

Lemma sales_block :
  (length (sales_factors product_data) <= 1)%nat
  /\ incl (sales_factors product_data) ["slow_moving"; "fast_moving"].
Proof.
  destruct (sales_factors_spec product_data)
    as [[_ ->] | [[_ ->] | [_ [_ ->]]]];
    (split; [simpl; lia | intros x Hx; simpl in *; tauto]).
Qed.

Lemma combined_block :
  (length (combined_factors product_data) <= 1)%nat
  /\ incl (combined_factors product_data)
       ["urgent_clearance_needed"; "scarcity_premium"].
Proof.
  destruct (combined_factors_spec product_data)
    as [[_ [_ ->]] | [[_ [_ ->]] | ->]];
    (split; [simpl; lia | intros x Hx; simpl in *; tauto]).
Qed.

Ltac disjoint_tags :=
  let x := fresh "x" in
  let Ha := fresh "Ha" in
  let Hb := fresh "Hb" in
  intros x Ha Hb; simpl in Ha, Hb;
  repeat match goal with
    | H : _ \/ _ |- _ => destruct H
    | H : False |- _ => destruct H
    end;
  subst; discriminate.

(** The tags of a model-based prediction are distinct, at most five, and
    taken from [pricing_tags]. *)
Lemma pricing_factors_well_formed :
  NoDup (pricing_factors product_data)
  /\ incl (pricing_factors product_data) pricing_tags
  /\ (length (pricing_factors product_data) <= 5)%nat.
Proof.
  destruct expiry_block as [LE IE]. destruct stock_block as [LS IS].
  destruct demand_block as [LD ID]. destruct sales_block as [LV IV].
  destruct combined_block as [LC IC].
  assert (NC : NoDup (combined_factors product_data)).
  { destruct (combined_factors product_data) as [| a [| b l]]; simpl in LC;
      [constructor | apply NoDup_singleton | lia]. }
  destruct (block_app _ _ _ _ LV IV NC IC) as [N1 I1]; [disjoint_tags |].
  destruct (block_app _ _ _ _ LD ID N1 I1) as [N2 I2]; [disjoint_tags |].
  destruct (block_app _ _ _ _ LS IS N2 I2) as [N3 I3]; [disjoint_tags |].
  destruct (block_app _ _ _ _ LE IE N3 I3) as [N4 I4]; [disjoint_tags |].
  unfold pricing_factors. split; [exact N4 |]. split; [exact I4 |].
  rewrite !length_app. lia.
Qed.

End TagLists.

Section TagMeaning.

Variable product_data : ProductData.

Ltac closed_membership :=
  split;
  [ let H := fresh "H" in
    intros H; simpl in H;
    repeat match goal with
      | H : _ \/ _ |- _ => destruct H
      | H : False |- _ => destruct H
      end;
    subst; try lia; try lra; tauto
  | let H := fresh "H" in
    intros H;
    repeat match goal with
      | H : _ \/ _ |- _ => destruct H
      | H : _ /\ _ |- _ => destruct H
      end;
    subst; try lia; try lra; simpl; tauto ].

Lemma expiry_factors_iff (t : string) :
  In t (expiry_factors product_data)
  <-> (t = "expired_clearance" /\ (days_to_expiry product_data <= 0)%Z)
      \/ (t = "critical_expiry" /\ (0 < days_to_expiry product_data <= 1)%Z)
      \/ (t = "expiry_proximity" /\ (1 < days_to_expiry product_data <= 3)%Z)
      \/ (t = "short_shelf_life" /\ (3 < days_to_expiry product_data <= 7)%Z).
Proof.
  destruct (expiry_factors_spec product_data)
    as [[? ->] | [[? ->] | [[? ->] | [[? ->] | [? ->]]]]]; closed_membership.
Qed.

Lemma stock_factors_iff (t : string) :
  In t (stock_factors product_data)
  <-> (t = "excess_inventory" /\ (200 < stock_level product_data)%Z)
      \/ (t = "high_stock" /\ (100 < stock_level product_data <= 200)%Z)
      \/ (t = "low_stock" /\ (stock_level product_data < 20)%Z).
Proof.
  destruct (stock_factors_spec product_data)
    as [[? ->] | [[? ->] | [[? ->] | [? ->]]]]; closed_membership.
Qed.

Lemma demand_factors_iff (t : string) :
  In t (demand_factors product_data)
  <-> (t = "low_demand" /\ demand_score product_data < 0.2)
      \/ (t = "high_demand" /\ 0.8 < demand_score product_data).
Proof.
  destruct (demand_factors_spec product_data)
    as [[? ->] | [[? ->] | [? [? ->]]]]; closed_membership.
Qed.

Lemma sales_factors_iff (t : string) :
  In t (sales_factors product_data)
  <-> (t = "slow_moving" /\ historical_sales product_data < 10)
      \/ (t = "fast_moving" /\ 100 < historical_sales product_data).
Proof.
  destruct (sales_factors_spec product_data)
    as [[? ->] | [[? ->] | [? [? ->]]]]; closed_membership.
Qed.

Lemma combined_factors_iff (t : string) :
  In t (combined_factors product_data)
  <-> (t = "urgent_clearance_needed"
       /\ (days_to_expiry product_data <= 3)%Z
       /\ (100 < stock_level product_data)%Z)
      \/ (t = "scarcity_premium"
          /\ (stock_level product_data < 20)%Z
          /\ 0.7 < demand_score product_data).
Proof.
  unfold combined_factors.
  destruct (Z.leb_spec (days_to_expiry product_data) 3);
    destruct (Z.ltb_spec 100 (stock_level product_data));
    destruct (Z.ltb_spec (stock_level product_data) 20);
    destruct (lt_spec 0.7 (demand_score product_data));
    cbn [andb app]; try lia; closed_membership.
Qed.

Lemma in_pricing_factors (t : string) :
  In t (pricing_factors product_data)
  <-> In t (expiry_factors product_data)
      \/ In t (stock_factors product_data)
      \/ In t (demand_factors product_data)
      \/ In t (sales_factors product_data)
      \/ In t (combined_factors product_data).
Proof. unfold pricing_factors. rewrite !in_app_iff. tauto. Qed.

End TagMeaning.

(** X12.  The tags of an answer of [predict_price] are pairwise distinct,
    at most five, and drawn from [rule_based_fallback], [error_fallback]
    and the thirteen tags of [pricing_tags]; [critical_stock] and
    [peak_demand], which the source also mentions, never occur. *)
Theorem answer_tags_well_formed
    (g : Globals) (product_data : ProductData) (w : World) :
  exists r w' fs,
    predict_price g product_data w = (inr r, w')
    /\ factors r = Some fs
    /\ NoDup fs
    /\ (length fs <= 5)%nat
    /\ incl fs ("rule_based_fallback" :: "error_fallback" :: pricing_tags)
    /\ ~ In "critical_stock" fs
    /\ ~ In "peak_demand" fs.
Proof.
  assert (V : forall fs,
             incl fs ("rule_based_fallback" :: "error_fallback" :: pricing_tags) ->
             ~ In "critical_stock" fs /\ ~ In "peak_demand" fs).
  { intros fs I. split; intros H; apply I in H; simpl in H;
      repeat (destruct H as [H | H]; [discriminate H |]); exact H. }
  destruct (pricing_factors_well_formed product_data) as (N & I & L).
  destruct (predict_price_cases g product_data w)
    as [[_ E] | [(e & w1 & _ & _ & E) | (mdl & x & y & _ & _ & _ & E)]];
    rewrite E; eexists; eexists; eexists;
    (split; [reflexivity |]); (split; [reflexivity |]).
  - split; [apply NoDup_singleton |]. split; [simpl; lia |].
    assert (I1 : incl ["rule_based_fallback"]
                   ("rule_based_fallback" :: "error_fallback" :: pricing_tags))
      by (intros t [<- | []]; simpl; auto).
    split; [exact I1 | exact (V _ I1)].
  - split; [apply NoDup_singleton |]. split; [simpl; lia |].
    assert (I1 : incl ["error_fallback"]
                   ("rule_based_fallback" :: "error_fallback" :: pricing_tags))
      by (intros t [<- | []]; simpl; auto).
    split; [exact I1 | exact (V _ I1)].
  - split; [exact N |]. split; [exact L |].
    assert (I1 : incl (pricing_factors product_data)
                   ("rule_based_fallback" :: "error_fallback" :: pricing_tags))
      by (intros t Ht; right; right; apply I, Ht).
    split; [exact I1 | exact (V _ I1)].
Qed.

Section TagTheorems.

Variable product_data : ProductData.

Ltac pick_tag :=
  match goal with
  | |- _ \/ _ => (left; pick_tag) || (right; pick_tag)
  | |- _ = _ /\ _ => split; [reflexivity |]
  end.

Ltac tag_iff :=
  rewrite in_pricing_factors, expiry_factors_iff, stock_factors_iff,
    demand_factors_iff, sales_factors_iff, combined_factors_iff;
  split;
  [ let H := fresh "H" in
    intros H; decompose [or and] H; clear H; try discriminate;
    try lia; try lra; auto
  | let H := fresh "H" in
    intros H;
    repeat match goal with H' : _ /\ _ |- _ => destruct H' end;
    pick_tag; repeat split; first [lia | lra | assumption] ].

(** X13.  What each tag of a model-based prediction means: it is present
    exactly when its condition on the product holds. *)
Theorem pricing_tags_meaning :
  let d := days_to_expiry product_data in
  let n := stock_level product_data in
  let s := demand_score product_data in
  let h := historical_sales product_data in
  let fs := pricing_factors product_data in
  (In "expired_clearance" fs <-> (d <= 0)%Z)
  /\ (In "critical_expiry" fs <-> d = 1%Z)
  /\ (In "expiry_proximity" fs <-> (2 <= d <= 3)%Z)
  /\ (In "short_shelf_life" fs <-> (4 <= d <= 7)%Z)
  /\ (In "excess_inventory" fs <-> (200 < n)%Z)
  /\ (In "high_stock" fs <-> (100 < n <= 200)%Z)
  /\ (In "low_stock" fs <-> (n < 20)%Z)
  /\ (In "low_demand" fs <-> s < 0.2)
  /\ (In "high_demand" fs <-> 0.8 < s)
  /\ (In "slow_moving" fs <-> h < 10)
  /\ (In "fast_moving" fs <-> 100 < h)
  /\ (In "urgent_clearance_needed" fs <-> (d <= 3)%Z /\ (100 < n)%Z)
  /\ (In "scarcity_premium" fs <-> (n < 20)%Z /\ 0.7 < s).
Proof.
  cbv zeta.
  repeat match goal with |- (_ <-> _) /\ _ => split; [tag_iff |] end.
  tag_iff.
Qed.

End TagTheorems.

(** * Further properties of the batch endpoint *)

Section BatchMore.

Variable g : Globals.

(** An answer of [predict_price] has one of three shapes. *)
Lemma answer_shape (product_data : ProductData) (r : PredictionResponse) :
  answers g product_data r ->
  (method r = "rule_based" /\ confidence r = Some 0.6
   /\ factors r = Some ["rule_based_fallback"])
  \/ (method r = "rule_based_fallback" /\ confidence r = Some 0.5
      /\ factors r = Some ["error_fallback"])
  \/ (method r = "ml_model"
      /\ factors r = Some (pricing_factors product_data)
      /\ exists c, confidence r = Some c /\ 0.6 <= c /\ c <= 0.95).
Proof.
  intros (w & w' & H).
  destruct (predict_price_cases g product_data w)
    as [[_ E] | [(e & w1 & _ & _ & E) | (mdl & x & y & _ & _ & _ & E)]];
    rewrite E in H; injection H as <- _.
  - left. repeat split.
  - right. left. repeat split.
  - right. right. split; [reflexivity |]. split; [reflexivity |].
    eexists. split; [reflexivity |]. apply confidence_range.
Qed.

(** The loop, run from the empty list, determines what it does from any
    list built so far. *)
Lemma batch_loop_run (todo : list ProductData) :
  forall w : World,
  exists rs w',
    (forall acc, batch_loop g todo acc w = (inr (acc ++ rs)%list, w'))
    /\ Forall2 (answers g) todo rs.
Proof.
  induction todo as [| p todo IH]; intros w.
  - exists [], w. split; [| constructor].
    intros acc. simpl. rewrite app_nil_r. reflexivity.
  - destruct (predict_price_returns g p w) as (r & w1 & E & _).
    destruct (IH w1) as (rs & w2 & E2 & F2).
    exists (r :: rs), w2. split.
    + intros acc. cbn [batch_loop]. unfold bind at 1, try_except.
      unfold bind at 1. rewrite E. unfold ret at 1. rewrite E2.
      rewrite <- app_assoc. reflexivity.
    + constructor; [exists w, w1; exact E | exact F2].
Qed.

Lemma batch_loop_app_bind (l1 l2 : list ProductData) :
  forall (acc : list PredictionResponse) (w : World),
    batch_loop g (l1 ++ l2) acc w
    = (acc' <- batch_loop g l1 acc ;; batch_loop g l2 acc') w.
Proof.
  induction l1 as [| p l1 IH]; intros acc w.
  - reflexivity.
  - cbn [app batch_loop]. set (T := try_except _ _).
    unfold bind. destruct (T w) as [[e | acc'] w1].
    + reflexivity.
    + rewrite IH. reflexivity.
Qed.

End BatchMore.

(** X14.  The per-item handler of the batch loop is never used: no
    prediction of a batch carries the tag [batch_error_fallback] or the
    confidence 0.4, and the batch itself never fails with the 500.  Every
    prediction is [rule_based] at 0.6, [rule_based_fallback] at 0.5, or
    [ml_model] between 0.6 and 0.95. *)
Theorem batch_predict_item_fallback_unused
    (g : Globals) (request : BatchPredictRequest) (w : World) :
  exists resp w',
    batch_predict g request w = (inr resp, w')
    /\ Forall
         (fun r =>
            factors r <> Some ["batch_error_fallback"]
            /\ (exists c, confidence r = Some c /\ ~ c == 0.4)
            /\ ((method r = "rule_based" /\ confidence r = Some 0.6)
                \/ (method r = "rule_based_fallback" /\ confidence r = Some 0.5)
                \/ (method r = "ml_model"
                    /\ exists c, confidence r = Some c /\ 0.6 <= c /\ c <= 0.95)))
         (predictions resp).
Proof.
  destruct (batch_loop_run g (products request) w) as (rs & w1 & E & F).
  eexists. eexists. split.
  - unfold batch_predict, try_except. unfold bind at 1. rewrite (E []).
    unfold bind, now, ret. reflexivity.
  - cbn [predictions app]. clear E.
    induction F as [| p r ps rs A F IH]; constructor; [| exact IH].
    destruct (answer_shape g p r A)
      as [(M & C & T) | [(M & C & T) | (M & T & c & C & L & U)]].
    + split; [rewrite T; discriminate |].
      split; [exists 0.6; split; [exact C | intros Q; discriminate Q] |].
      left. auto.
    + split; [rewrite T; discriminate |].
      split; [exists 0.5; split; [exact C | intros Q; discriminate Q] |].
      right. left. auto.
    + split.
      * rewrite T. intros Q. injection Q as Q.
        destruct (pricing_factors_well_formed p) as (_ & I & _).
        assert (B : In "batch_error_fallback" (pricing_factors p))
          by (rewrite Q; left; reflexivity).
        apply I in B. simpl in B.
        repeat (destruct B as [B | B]; [discriminate B |]). exact B.
      * split; [exists c; split; [exact C | intros Q; rewrite Q in L; lra] |].
        right. right. split; [exact M |]. exists c. auto.
Qed.

(** X15.  A batch of one product returns exactly the answer that the
    single-product endpoint gives from the same state, then reads the
    clock once more for its own timestamp. *)
Theorem batch_predict_singleton
    (g : Globals) (product_data : ProductData) (w : World) :
  exists r w1,
    predict_price g product_data w = (inr r, w1)
    /\ batch_predict g {| products := [product_data] |} w
       = (inr {| predictions := [r];
                 total_processed := 1;
                 batch_timestamp := clock w1 |},
          {| clock := S (clock w1); log := log w1 |}).
Proof.
  destruct (predict_price_returns g product_data w) as (r & w1 & E & _).
  exists r, w1. split; [exact E |].
  unfold batch_predict, try_except. cbn [products batch_loop].
  unfold bind at 1. unfold bind at 1. unfold try_except. unfold bind at 1.
  rewrite E. reflexivity.
Qed.

(** X16.  The loop composes: running it over [l1 ++ l2] is running it
    over [l1] and then, from the state this leaves, over [l2]; the
    predictions are concatenated. *)
Theorem batch_loop_app
    (g : Globals) (l1 l2 : list ProductData) (w : World) :
  exists rs1 w1 rs2 w2,
    batch_loop g l1 [] w = (inr rs1, w1)
    /\ batch_loop g l2 [] w1 = (inr rs2, w2)
    /\ batch_loop g (l1 ++ l2) [] w = (inr (rs1 ++ rs2)%list, w2).
Proof.
  destruct (batch_loop_run g l1 w) as (rs1 & w1 & E1 & _).
  destruct (batch_loop_run g l2 w1) as (rs2 & w2 & E2 & _).
  exists rs1, w1, rs2, w2.
  split; [exact (E1 []) |]. split; [exact (E2 []) |].
  rewrite batch_loop_app_bind. unfold bind. rewrite (E1 []). apply (E2 rs1).
Qed.

(** * Training and loading *)

(** Names the process state that the goal has built so far. *)
Ltac name_state s1 :=
  match goal with
  | |- context [mkProcess ?a ?b ?c ?d ?e ?f] => set (s1 := mkProcess a b c d e f)
  end.

Section RandomSteps.

(** A step on the NumPy generator leaves the rest of the process alone. *)
Lemma with_np_returns {A : Type} (m : M RandomState A) (s : Process) :
  (forall r, exists a r', m r = (inr a, r')) ->
  exists a s',
    with_np m s = (inr a, s')
    /\ same_service s s'
    /\ records s' = records s
    /\ py_random s' = py_random s.
Proof.
  intros H. destruct (H (np_random s)) as (a & r' & E).
  unfold with_np. rewrite E. eexists. eexists.
  split; [reflexivity |]. repeat split.
Qed.

Lemma with_np_raises {A : Type} (m : M RandomState A) (s : Process)
    (e : PyException) :
  (exists r', m (np_random s) = (inl e, r')) ->
  exists s',
    with_np m s = (inl e, s')
    /\ same_service s s'
    /\ records s' = records s.
Proof.
  intros (r' & E). unfold with_np. rewrite E. eexists.
  split; [reflexivity |]. repeat split.
Qed.

(** On samples of the unit interval [random.choice] returns an element of
    a non-empty list. *)
Lemma choice_returns {A : Type} (xs : list A) (r : RandomState) :
  xs <> [] ->
  unit_samples r ->
  exists x,
    choice xs r = (inr x, {| draws := draws r; cursor := S (cursor r) |})
    /\ In x xs.
Proof.
  intros Hne Hu. destruct (Hu (cursor r)) as [L U].
  set (u := draws r (cursor r)) in *.
  set (n := Z.of_nat (length xs)).
  assert (Hn : (0 < n)%Z) by (destruct xs; [congruence | subst n; simpl; lia]).
  assert (Hq : 0 < inject_Z n) by (rewrite Zlt_Qlt in Hn; exact Hn).
  assert (F0 : (0 <= Qfloor (inject_Z n * u))%Z).
  { rewrite <- (Qfloor_Z 0). apply Qfloor_resp_le.
    apply Qmult_le_0_compat; [apply Qlt_le_weak, Hq | exact L]. }
  assert (F1 : (Qfloor (inject_Z n * u) < n)%Z).
  { rewrite Zlt_Qlt. eapply Qle_lt_trans; [apply Qfloor_le |].
    rewrite <- (Qmult_1_r (inject_Z n)) at 2.
    apply Qmult_lt_l; assumption. }
  assert (I : (Z.to_nat (Qfloor (inject_Z n * u)) < length xs)%nat) by lia.
  destruct (nth_error xs (Z.to_nat (Qfloor (inject_Z n * u)))) as [x |] eqn:E.
  - exists x. split.
    + unfold choice, bind, next_draw. fold u. fold n. rewrite E. reflexivity.
    + eapply nth_error_In, E.
  - apply nth_error_None in E. lia.
Qed.

Lemma with_py_choice {A : Type} (xs : list A) (s : Process) :
  xs <> [] ->
  unit_samples (py_random s) ->
  exists x s',
    with_py (choice xs) s = (inr x, s')
    /\ In x xs
    /\ same_service s s'
    /\ records s' = records s
    /\ unit_samples (py_random s').
Proof.
  intros Hne Hu. destruct (choice_returns xs (py_random s) Hne Hu) as (x & E & I).
  unfold with_py. rewrite E. eexists. eexists.
  split; [reflexivity |]. split; [exact I |]. repeat split; apply Hu.
Qed.

Lemma sampler_returns :
  (forall lo hi r, exists a r', uniform lo hi r = (inr a, r'))
  /\ (forall lo hi r, exists a r', randint lo hi r = (inr a, r'))
  /\ (forall lib a b r, exists v r', beta lib a b r = (inr v, r'))
  /\ (forall lib lam r, exists v r', poisson lib lam r = (inr v, r')).
Proof. repeat split; intros; eexists; eexists; reflexivity. Qed.

(** The label of a sample is never computed. *)
Lemma target_price_unbound
    (original_price : Q) (days_to_expiry stock_level : Z) (demand_score : Q)
    (category : string) (historical_sales : Q) (day_of_week : string)
    (r : RandomState) :
  exists r',
    calculate_target_price original_price days_to_expiry stock_level
      demand_score category historical_sales day_of_week r
    = (inl (UnboundLocalError "price"), r').
Proof.
  unfold calculate_target_price. cbv zeta.
  unfold bind at 1.
  destruct (target_expiry_stage_returns days_to_expiry 1.0 r) as (m1 & r1 & ->).
  unfold bind at 1.
  destruct (target_demand_stage_returns demand_score m1 r1) as (m2 & r2 & ->).
  unfold bind at 1.
  destruct (target_stock_stage_returns stock_level m2 r2) as (m3 & r3 & ->).
  unfold bind at 1.
  destruct (target_sales_stage_returns historical_sales m3 r3) as (m4 & r4 & ->).
  unfold bind at 1.
  destruct (Py.lt historical_sales 20);
    [rewrite imul_fast_unbound; eexists; reflexivity |].
  destruct (Py.lt 100 historical_sales);
    [rewrite imul_fast_unbound; eexists; reflexivity |].
  unfold ret at 1. unfold bind at 1.
  destruct (category_multipliers_returns r4) as (d & r5 & ->).
  unfold bind at 1. rewrite imul_fast_unbound. eexists. reflexivity.
Qed.

End RandomSteps.

Section Training.

Variable lib : Libraries.

Lemma same_service_trans (s1 s2 s3 : Process) :
  same_service s1 s2 -> same_service s2 s3 -> same_service s1 s3.
Proof.
  unfold same_service. intros (A1 & A2 & A3) (B1 & B2 & B3).
  repeat split; congruence.
Qed.

Lemma base_price_known (c : string) :
  In c ["dairy"; "meat"; "vegetables"; "fruits"; "bakery"; "seafood"; "other"] ->
  exists v, category_base_prices !! c = Some v.
Proof.
  intros H. simpl in H.
  repeat (destruct H as [<- | H]; [eexists; reflexivity |]).
  destruct H.
Qed.

(** The first iteration of the loop already fails, at the label. *)
Lemma synthetic_loop_raises (todo : nat) (data : list Sample) (s : Process) :
  unit_samples (py_random s) ->
  exists s',
    synthetic_loop lib (S todo) data s = (inl (UnboundLocalError "price"), s')
    /\ same_service s s'
    /\ records s' = records s.
Proof.
  intros Hu. cbn [synthetic_loop]. cbv zeta.
  destruct (with_py_choice
              ["dairy"; "meat"; "vegetables"; "fruits"; "bakery"; "seafood";
               "other"] s ltac:(discriminate) Hu)
    as (c & s1 & E1 & I1 & F1 & R1 & U1).
  unfold bind at 1. rewrite E1.
  destruct (base_price_known c I1) as ([lo hi] & L). rewrite L.
  unfold bind at 1. unfold ret at 1.
  destruct sampler_returns as (Su & Si & Sb & Sp).
  destruct (with_np_returns (uniform lo hi) s1 (Su lo hi))
    as (p & s2 & E2 & F2 & R2 & P2).
  unfold bind at 1. rewrite E2.
  destruct (with_np_returns (randint (-2) 30) s2 (Si _ _))
    as (d & s3 & E3 & F3 & R3 & P3).
  unfold bind at 1. rewrite E3.
  destruct (with_np_returns (randint 0 500) s3 (Si _ _))
    as (n & s4 & E4 & F4 & R4 & P4).
  unfold bind at 1. rewrite E4.
  destruct (with_np_returns (beta lib 2 2) s4 (Sb lib _ _))
    as (q & s5 & E5 & F5 & R5 & P5).
  unfold bind at 1. rewrite E5.
  destruct (with_np_returns (poisson lib 50) s5 (Sp lib _))
    as (h & s6 & E6 & F6 & R6 & P6).
  unfold bind at 1. rewrite E6.
  assert (U6 : unit_samples (py_random s6)) by (rewrite P6, P5, P4, P3, P2; exact U1).
  destruct (with_py_choice
              ["monday"; "tuesday"; "wednesday"; "thursday"; "friday";
               "saturday"; "sunday"] s6 ltac:(discriminate) U6)
    as (w & s7 & E7 & _ & F7 & R7 & _).
  unfold bind at 1. rewrite E7.
  destruct (with_np_raises
              (calculate_target_price p d n q c (inject_Z h) w) s7
              (UnboundLocalError "price")
              (target_price_unbound p d n q c (inject_Z h) w (np_random s7)))
    as (s8 & E8 & F8 & R8).
  unfold bind at 1. rewrite E8.
  exists s8. split; [reflexivity |]. split.
  - pose proof (same_service_trans _ _ _ F1 F2) as G2.
    pose proof (same_service_trans _ _ _ G2 F3) as G3.
    pose proof (same_service_trans _ _ _ G3 F4) as G4.
    pose proof (same_service_trans _ _ _ G4 F5) as G5.
    pose proof (same_service_trans _ _ _ G5 F6) as G6.
    pose proof (same_service_trans _ _ _ G6 F7) as G7.
    exact (same_service_trans _ _ _ G7 F8).
  - congruence.
Qed.

Lemma create_synthetic_data_fails (n_samples : Z) (s : Process) :
  (0 < n_samples)%Z ->
  unit_samples (py_seed lib 42) ->
  exists s',
    create_synthetic_data lib n_samples s
    = (inl (UnboundLocalError "price"), s')
    /\ same_service s s'
    /\ records s'
       = (records s
          ++ [("INFO",
               ("Creating " ++ pretty n_samples
                ++ " synthetic data samples...")%string)])%list.
Proof.
  intros Hn Hu. unfold create_synthetic_data.
  destruct (Z.to_nat n_samples) as [| k] eqn:Ek; [lia |].
  set (s3 :=
         {| globals := globals s;
            feature_names := feature_names s;
            models_dir := models_dir s;
            np_random := np_seed lib 42;
            py_random := py_seed lib 42;
            records :=
              (records s
               ++ [("INFO",
                    ("Creating " ++ pretty n_samples
                     ++ " synthetic data samples...")%string)])%list |}).
  destruct (synthetic_loop_raises k [] s3 Hu) as (s' & E & F & R).
  exists s'. split; [| split].
  - unfold bind at 1. unfold logger at 1.
    unfold bind at 1. unfold with_np at 1, seed at 1.
    unfold bind at 1. unfold with_py at 1, seed at 1.
    cbn [globals feature_names models_dir np_random py_random records].
    fold s3. unfold bind at 1. rewrite E. reflexivity.
  - destruct F as (A & B & C). repeat split; assumption.
  - exact R.
Qed.

End Training.

Section Loading.

Variable lib : Libraries.

Lemma train_model_fails (s : Process) :
  unit_samples (py_seed lib 42) ->
  exists s',
    train_model lib s = (inl (UnboundLocalError "price"), s')
    /\ same_service s s'
    /\ records s'
       = (records s
          ++ [("INFO", "Training new model with synthetic data...");
              ("INFO", "Creating 10000 synthetic data samples...");
              ("ERROR",
               ("Error training model: "
                ++ exn_str (UnboundLocalError "price"))%string)])%list.
Proof.
  intros Hu. unfold train_model. unfold bind at 1. unfold logger at 1.
  cbv beta iota.
  name_state s1.
  destruct (create_synthetic_data_fails lib 10000 s1 ltac:(lia) Hu)
    as (s2 & E & (F1 & F2 & F3) & R).
  unfold try_except. unfold bind at 1. rewrite E.
  eexists. split; [reflexivity |]. split.
  - repeat split; assumption.
  - cbn [records]. rewrite R. subst s1. cbn [records].
    rewrite <- !app_assoc. reflexivity.
Qed.

Lemma load_model_without_files (s : Process) :
  exists_ (model_path (models_dir s))
  && exists_ (preprocessor_path (models_dir s)) = false ->
  unit_samples (py_seed lib 42) ->
  exists s',
    load_model lib s = (inr false, s')
    /\ same_service s s'.
Proof.
  intros Hf Hu. unfold load_model, try_except. rewrite Hf.
  unfold bind at 1. unfold logger at 1. cbv beta iota.
  name_state s1.
  destruct (train_model_fails s1 Hu) as (s2 & E & (F1 & F2 & F3) & _).
  unfold bind at 1. rewrite E.
  eexists. split; [reflexivity |]. repeat split; assumption.
Qed.

End Loading.

(** X17.  For any positive number of samples [create_synthetic_data]
    raises [UnboundLocalError] for [price] in its first iteration, whatever
    the seeded generators produce (the [random] samples being in the unit
    interval); the globals and the model files are untouched and only the
    opening line is logged. *)
Theorem create_synthetic_data_raises
    (lib : Libraries) (n_samples : Z) (s : Process) :
  (0 < n_samples)%Z ->
  unit_samples (py_seed lib 42) ->
  exists s',
    create_synthetic_data lib n_samples s
    = (inl (UnboundLocalError "price"), s')
    /\ same_service s s'
    /\ records s'
       = (records s
          ++ [("INFO",
               ("Creating " ++ pretty n_samples
                ++ " synthetic data samples...")%string)])%list.
Proof. apply create_synthetic_data_fails. Qed.

Lemma create_synthetic_data_raises_witness :
  (0 < 15000)%Z
  /\ unit_samples (py_seed stub_libraries 42)
  /\ exists s',
       create_synthetic_data stub_libraries 15000 fresh_process
       = (inl (UnboundLocalError "price"), s')
       /\ same_service fresh_process s'
       /\ records s'
          = (records fresh_process
             ++ [("INFO",
                  ("Creating " ++ pretty 15000%Z
                   ++ " synthetic data samples...")%string)])%list.
Proof.
  assert (H1 : (0 < 15000)%Z) by lia.
  assert (H2 : unit_samples (py_seed stub_libraries 42))
    by (intros k; simpl; split; lra).
  split; [exact H1 |]. split; [exact H2 |].
  exact (create_synthetic_data_raises stub_libraries 15000 fresh_process H1 H2).
Defined.

(** X18.  Asked for no samples (or a negative number of them),
    [create_synthetic_data] reseeds both generators with 42, draws nothing
    and returns the empty data set, logged with shape (0, 0). *)
Theorem create_synthetic_data_empty
    (lib : Libraries) (n_samples : Z) (s : Process) :
  (n_samples <= 0)%Z ->
  exists s',
    create_synthetic_data lib n_samples s = (inr [], s')
    /\ same_service s s'
    /\ np_random s' = np_seed lib 42
    /\ py_random s' = py_seed lib 42
    /\ records s'
       = (records s
          ++ [("INFO",
               ("Creating " ++ pretty n_samples
                ++ " synthetic data samples...")%string);
              ("INFO", "Created dataset with shape: (0, 0)")])%list.
Proof.
  intros Hn. unfold create_synthetic_data.
  replace (Z.to_nat n_samples) with 0%nat by lia.
  eexists. split; [reflexivity |].
  split; [repeat split |]. split; [reflexivity |]. split; [reflexivity |].
  cbn [records]. rewrite <- app_assoc. reflexivity.
Qed.

Lemma create_synthetic_data_empty_witness :
  (0 <= 0)%Z
  /\ exists s',
       create_synthetic_data stub_libraries 0 fresh_process = (inr [], s')
       /\ same_service fresh_process s'
       /\ np_random s' = np_seed stub_libraries 42
       /\ py_random s' = py_seed stub_libraries 42
       /\ records s'
          = (records fresh_process
             ++ [("INFO",
                  ("Creating " ++ pretty 0%Z
                   ++ " synthetic data samples...")%string);
                 ("INFO", "Created dataset with shape: (0, 0)")])%list.
Proof.
  assert (H : (0 <= 0)%Z) by lia.
  split; [exact H |].
  exact (create_synthetic_data_empty stub_libraries 0 fresh_process H).
Defined.

(** X19.  [train_model] of the service never trains: it always re-raises
    the [UnboundLocalError] of the data generator, after logging it, and
    leaves [model], [preprocessor], [feature_names] and the model files as
    they were. *)
Theorem train_model_always_raises (lib : Libraries) (s : Process) :
  unit_samples (py_seed lib 42) ->
  exists s',
    train_model lib s = (inl (UnboundLocalError "price"), s')
    /\ same_service s s'
    /\ records s'
       = (records s
          ++ [("INFO", "Training new model with synthetic data...");
              ("INFO", "Creating 10000 synthetic data samples...");
              ("ERROR",
               ("Error training model: "
                ++ exn_str (UnboundLocalError "price"))%string)])%list.
Proof. apply train_model_fails. Qed.

Lemma train_model_always_raises_witness :
  unit_samples (py_seed stub_libraries 42)
  /\ exists s',
       train_model stub_libraries fresh_process
       = (inl (UnboundLocalError "price"), s')
       /\ same_service fresh_process s'
       /\ records s'
          = (records fresh_process
             ++ [("INFO", "Training new model with synthetic data...");
                 ("INFO", "Creating 10000 synthetic data samples...");
                 ("ERROR",
                  ("Error training model: "
                   ++ exn_str (UnboundLocalError "price"))%string)])%list.
Proof.
  assert (H : unit_samples (py_seed stub_libraries 42))
    by (intros k; simpl; split; lra).
  split; [exact H |].
  exact (train_model_always_raises stub_libraries fresh_process H).
Defined.

(** X20.  When the model file or the preprocessor file is missing,
    [load_model] tries to train, fails, and returns [False] with the
    globals unchanged; [startup_event] then raises [RuntimeError]. *)
Theorem load_model_without_model_files (lib : Libraries) (s : Process) :
  exists_ (model_path (models_dir s))
  && exists_ (preprocessor_path (models_dir s)) = false ->
  unit_samples (py_seed lib 42) ->
  exists s1 s2,
    load_model lib s = (inr false, s1)
    /\ same_service s s1
    /\ startup_event lib s
       = (inl (Raised "RuntimeError" "Model loading failed"), s2)
    /\ same_service s s2.
Proof.
  intros Hf Hu.
  destruct (load_model_without_files lib s Hf Hu) as (s1 & E & F).
  unfold startup_event. unfold bind at 1. unfold logger at 1.
  cbv beta iota.
  name_state s0.
  destruct (load_model_without_files lib s0 Hf Hu) as (s2 & E2 & (F1 & F2 & F3)).
  exists s1. eexists. split; [exact E |]. split; [exact F |].
  unfold bind at 1. rewrite E2. split; [reflexivity |].
  repeat split; assumption.
Qed.

Lemma load_model_without_model_files_witness :
  exists_ (model_path (models_dir fresh_process))
  && exists_ (preprocessor_path (models_dir fresh_process)) = false
  /\ unit_samples (py_seed stub_libraries 42)
  /\ exists s1 s2,
       load_model stub_libraries fresh_process = (inr false, s1)
       /\ same_service fresh_process s1
       /\ startup_event stub_libraries fresh_process
          = (inl (Raised "RuntimeError" "Model loading failed"), s2)
       /\ same_service fresh_process s2.
Proof.
  assert (H1 : exists_ (model_path (models_dir fresh_process))
               && exists_ (preprocessor_path (models_dir fresh_process)) = false)
    by reflexivity.
  assert (H2 : unit_samples (py_seed stub_libraries 42))
    by (intros k; simpl; split; lra).
  split; [exact H1 |]. split; [exact H2 |].
  exact (load_model_without_model_files stub_libraries fresh_process H1 H2).
Defined.

(** X21.  When the model file and the preprocessor file load,
    [load_model] returns [True] without training: [model] and
    [preprocessor] are the loaded objects and [feature_names] is the
    content of the third file or, when that file is missing, the default
    list of 19 names; files and generators are untouched and
    [startup_event] returns. *)
Theorem load_model_from_files
    (lib : Libraries) (s : Process) (m : Estimator) (t : Transformer)
    (names : option (list string)) :
  model_path (models_dir s) = Some (inr m) ->
  preprocessor_path (models_dir s) = Some (inr t) ->
  features_path (models_dir s) = option_map inr names ->
  exists s1 s2,
    load_model lib s = (inr true, s1)
    /\ globals s1 = {| model := Some m; preprocessor := Some t |}
    /\ feature_names s1 = Some (default default_feature_names names)
    /\ length default_feature_names = 19%nat
    /\ models_dir s1 = models_dir s
    /\ np_random s1 = np_random s
    /\ py_random s1 = py_random s
    /\ startup_event lib s = (inr tt, s2)
    /\ globals s2 = globals s1.
Proof.
  intros Hm Ht Hf.
  assert (L : forall s0,
             models_dir s0 = models_dir s ->
             exists s1,
               load_model lib s0 = (inr true, s1)
               /\ globals s1 = {| model := Some m; preprocessor := Some t |}
               /\ feature_names s1 = Some (default default_feature_names names)
               /\ models_dir s1 = models_dir s
               /\ np_random s1 = np_random s0
               /\ py_random s1 = py_random s0).
  { intros s0 D. unfold load_model, try_except. rewrite D, Hm, Ht, Hf.
    destruct names as [ns |]; cbn [option_map exists_ andb joblib_load];
      eexists; (split; [reflexivity |]); cbn; repeat split; exact D. }
  destruct (L s eq_refl) as (s1 & E1 & G1 & N1 & D1 & P1 & Q1).
  unfold startup_event. unfold bind at 1. unfold logger at 1. cbv beta iota.
  name_state s0.
  destruct (L s0 eq_refl) as (s2 & E2 & G2 & _).
  exists s1, s2. split; [exact E1 |]. split; [exact G1 |]. split; [exact N1 |].
  split; [reflexivity |]. split; [exact D1 |]. split; [exact P1 |].
  split; [exact Q1 |].
  unfold bind at 1. rewrite E2. split; [reflexivity | congruence].
Qed.

Lemma load_model_from_files_witness :
  model_path (models_dir stocked_process) = Some (inr constant_model)
  /\ preprocessor_path (models_dir stocked_process)
     = Some (inr failing_preprocessor)
  /\ features_path (models_dir stocked_process) = option_map inr None
  /\ exists s1 s2,
       load_model stub_libraries stocked_process = (inr true, s1)
       /\ globals s1
          = {| model := Some constant_model;
               preprocessor := Some failing_preprocessor |}
       /\ feature_names s1 = Some (default default_feature_names None)
       /\ length default_feature_names = 19%nat
       /\ models_dir s1 = models_dir stocked_process
       /\ np_random s1 = np_random stocked_process
       /\ py_random s1 = py_random stocked_process
       /\ startup_event stub_libraries stocked_process = (inr tt, s2)
       /\ globals s2 = globals s1.
Proof.
  split; [reflexivity |]. split; [reflexivity |]. split; [reflexivity |].
  exact (load_model_from_files stub_libraries stocked_process constant_model
           failing_preprocessor None eq_refl eq_refl eq_refl).
Defined.

(** X22.  A load can stop half-way: when the model file loads and the
    preprocessor file is unreadable, [load_model] returns [False] but
    [model] has already been replaced by the loaded object, while
    [preprocessor] and [feature_names] keep their old values. *)
Theorem load_model_partial
    (lib : Libraries) (s : Process) (m : Estimator) (e : PyException) :
  model_path (models_dir s) = Some (inr m) ->
  preprocessor_path (models_dir s) = Some (inl e) ->
  exists s1,
    load_model lib s = (inr false, s1)
    /\ model (globals s1) = Some m
    /\ preprocessor (globals s1) = preprocessor (globals s)
    /\ feature_names s1 = feature_names s
    /\ records s1
       = (records s ++ [("ERROR", ("Error loading model: " ++ exn_str e)%string)])%list.
Proof.
  intros Hm Ht. unfold load_model, try_except. rewrite Hm, Ht.
  cbn [exists_ andb joblib_load].
  eexists. split; [reflexivity |]. repeat split.
Qed.

Lemma load_model_partial_witness :
  model_path (models_dir damaged_process) = Some (inr constant_model)
  /\ preprocessor_path (models_dir damaged_process)
     = Some (inl (Raised "EOFError" "Ran out of input"))
  /\ exists s1,
       load_model stub_libraries damaged_process = (inr false, s1)
       /\ model (globals s1) = Some constant_model
       /\ preprocessor (globals s1) = preprocessor (globals damaged_process)
       /\ feature_names s1 = feature_names damaged_process
       /\ records s1
          = (records damaged_process
             ++ [("ERROR",
                  ("Error loading model: "
                   ++ exn_str (Raised "EOFError" "Ran out of input"))%string)])%list.
Proof.
  split; [reflexivity |]. split; [reflexivity |].
  exact (load_model_partial stub_libraries damaged_process constant_model
           (Raised "EOFError" "Ran out of input") eq_refl eq_refl).
Defined.

(** * The calculator in binary64 *)

Section Comparisons64.

(** A double above 100 or above 200 is above 50: the last two tests of
    the sales-velocity chain cannot succeed where the third has failed. *)
Lemma above_100_above_50 (h : float) :
  (100 <? h)%float = true -> (50 <? h)%float = true.
Proof.
  rewrite !ltb_spec.
  change (Prim2SF 100) with (S754_finite false 7036874417766400 (-46)).
  change (Prim2SF 50) with (S754_finite false 7036874417766400 (-47)).
  destruct (Prim2SF h) as [s | s | | s m e]; unfold SFltb, SFcompare;
    try (destruct s); try congruence.
  destruct (Z.compare_spec (-46) e); destruct (Z.compare_spec (-47) e);
    try lia; congruence.
Qed.

Lemma above_200_above_50 (h : float) :
  (200 <? h)%float = true -> (50 <? h)%float = true.
Proof.
  rewrite !ltb_spec.
  change (Prim2SF 200) with (S754_finite false 7036874417766400 (-45)).
  change (Prim2SF 50) with (S754_finite false 7036874417766400 (-47)).
  destruct (Prim2SF h) as [s | s | | s m e]; unfold SFltb, SFcompare;
    try (destruct s); try congruence.
  destruct (Z.compare_spec (-45) e); destruct (Z.compare_spec (-47) e);
    try lia; congruence.
Qed.

End Comparisons64.

(** Finds the goal among the elements of a list given in full. *)
Ltac in_list := simpl; repeat (first [left; reflexivity | right]).

Section Reachable64.

Variable str_lower : string -> string.
Variable product_data : ProductData64.

Lemma scale_all_in (consts ms : list float) (m x : float) :
  In m ms -> In x (map (PrimFloat.mul m) consts) -> In x (scale_all consts ms).
Proof. intros Hm Hx. unfold scale_all. apply in_flat_map. exists m. auto. Qed.

Lemma expiry_stage64_in (m : float) :
  In (expiry_stage64 product_data m) (map (PrimFloat.mul m) expiry_constants).
Proof. unfold expiry_stage64. cbv zeta. branches; in_list. Qed.

Lemma expiry_stage64_expired (m : float) :
  (days_to_expiry64 product_data <= 0)%Z ->
  In (expiry_stage64 product_data m) (map (PrimFloat.mul m) [0.05%float]).
Proof.
  intros H. unfold expiry_stage64. cbv zeta.
  apply Z.leb_le in H. rewrite H. in_list.
Qed.

Lemma demand_stage64_in (m : float) :
  In (demand_stage64 product_data m) (map (PrimFloat.mul m) demand_constants).
Proof. unfold demand_stage64. cbv zeta. branches; in_list. Qed.

Lemma stock_stage64_in (m : float) :
  In (stock_stage64 product_data m) (map (PrimFloat.mul m) stock_constants).
Proof. unfold stock_stage64. cbv zeta. branches; in_list. Qed.

Lemma sales_velocity_stage64_in (m : float) :
  sales_velocity_stage64 product_data m = m
  \/ In (sales_velocity_stage64 product_data m)
        (map (PrimFloat.mul m) sales_constants).
Proof.
  unfold sales_velocity_stage64. cbv zeta.
  destruct (_ <? 5)%float; [right; in_list |].
  destruct (_ <? 20)%float; [right; in_list |].
  destruct (50 <? _)%float eqn:E50; [right; in_list |].
  destruct (100 <? _)%float eqn:E100.
  { apply above_100_above_50 in E100. congruence. }
  destruct (200 <? _)%float eqn:E200.
  { apply above_200_above_50 in E200. congruence. }
  left. reflexivity.
Qed.

Lemma category_multiplier64_in (key : string) :
  In (default 1.0%float (category_adjustments64 !! key)) category_constants.
Proof.
  assert (A : map_Forall (fun _ v => In v category_constants)
                category_adjustments64).
  { unfold category_adjustments64.
    repeat (apply map_Forall_insert_2; [in_list |]).
    apply map_Forall_empty. }
  destruct (category_adjustments64 !! key) as [v |] eqn:E; simpl.
  - exact (A key v E).
  - in_list.
Qed.

Lemma category_stage64_in (m : float) :
  In (category_stage64 str_lower product_data m)
     (map (PrimFloat.mul m) category_constants).
Proof. unfold category_stage64. cbv zeta. apply in_map, category_multiplier64_in. Qed.

(** The multiplier that enters the bounds is one of the staged ones. *)
Lemma staged_multiplier64_in (expiry : list float) :
  In (expiry_stage64 product_data 1.0%float)
     (map (PrimFloat.mul 1.0%float) expiry) ->
  In (category_stage64 str_lower product_data
        (sales_velocity_stage64 product_data
           (stock_stage64 product_data
              (demand_stage64 product_data
                 (expiry_stage64 product_data 1.0%float)))))
     (staged_multipliers expiry).
Proof.
  intros He. unfold staged_multipliers. cbv zeta.
  set (e := expiry_stage64 product_data 1.0%float) in *.
  set (d := demand_stage64 product_data e).
  set (s := stock_stage64 product_data d).
  assert (Ie : In e (scale_all expiry [1.0%float])).
  { eapply scale_all_in; [left; reflexivity | exact He]. }
  assert (Id : In d (scale_all demand_constants (scale_all expiry [1.0%float]))).
  { eapply scale_all_in; [exact Ie | apply demand_stage64_in]. }
  assert (Is : In s (scale_all stock_constants
                       (scale_all demand_constants
                          (scale_all expiry [1.0%float])))).
  { eapply scale_all_in; [exact Id | apply stock_stage64_in]. }
  eapply scale_all_in; [| apply category_stage64_in].
  apply in_or_app.
  destruct (sales_velocity_stage64_in s) as [-> | Hv].
  - left. exact Is.
  - right. eapply scale_all_in; [exact Is | exact Hv].
Qed.

Lemma bound_multiplier64_in (ms : list float) (m : float) :
  In m ms -> In (bound_multiplier64 product_data m) (bounded_multipliers true ms).
Proof.
  intros H. unfold bound_multiplier64, bounded_multipliers. cbv zeta.
  destruct (_ && _); destruct (5 <? _)%Z.
  - apply in_or_app. right. apply (in_map (fun m => min64 m 1.35%float)).
    apply in_or_app. right.
    apply (in_map (fun m => max64 m 0.70%float)), H.
  - apply in_or_app. left. apply in_or_app. right.
    apply (in_map (fun m => max64 m 0.70%float)), H.
  - apply in_or_app. right. apply (in_map (fun m => min64 m 1.35%float)).
    apply in_or_app. left. exact H.
  - apply in_or_app. left. apply in_or_app. left. exact H.
Qed.

Lemma bound_multiplier64_expired_in (ms : list float) (m : float) :
  (days_to_expiry64 product_data <= 0)%Z ->
  In m ms -> In (bound_multiplier64 product_data m) (bounded_multipliers false ms).
Proof.
  intros Hd H. unfold bound_multiplier64, bounded_multipliers. cbv zeta.
  apply Z.ltb_ge in Hd. rewrite Hd. cbn [andb].
  destruct (5 <? _)%Z.
  - apply in_or_app. right. apply (in_map (fun m => min64 m 1.35%float)), H.
  - apply in_or_app. left. exact H.
Qed.

(** The final multiplier is one of finitely many doubles. *)
Lemma final_multiplier64_in :
  In (final_multiplier64 str_lower product_data)
     (bounded_multipliers true (staged_multipliers expiry_constants)).
Proof.
  unfold final_multiplier64. cbv zeta.
  apply bound_multiplier64_in, staged_multiplier64_in, expiry_stage64_in.
Qed.

Lemma final_multiplier64_expired_in :
  (days_to_expiry64 product_data <= 0)%Z ->
  In (final_multiplier64 str_lower product_data)
     (bounded_multipliers false (staged_multipliers [0.05%float])).
Proof.
  intros Hd. unfold final_multiplier64. cbv zeta.
  apply bound_multiplier64_expired_in; [exact Hd |].
  apply staged_multiplier64_in, expiry_stage64_expired, Hd.
Qed.

(** The price is the current price times the final multiplier, or times
    the 0.05 of the floor. *)
Lemma price64_is_a_product :
  calculate_rule_based_price64 str_lower product_data
  = (current_price64 product_data
     * final_multiplier64 str_lower product_data)%float
  \/ calculate_rule_based_price64 str_lower product_data
     = (current_price64 product_data * 0.05)%float.
Proof.
  unfold calculate_rule_based_price64, max64. cbv zeta.
  destruct (_ <? _)%float; auto.
Qed.

End Reachable64.

Section Bounds64.

(** Checked by evaluating all reachable multipliers. *)
Lemma reachable_multipliers_bound :
  forallb (fun m => (m <=? 1.9348875000000003)%float)
    (bounded_multipliers true (staged_multipliers expiry_constants)) = true.
Proof. vm_compute. reflexivity. Qed.

Lemma reachable_expired_multipliers_bound :
  forallb (fun m => (m <=? 0.092137500000000025)%float)
    (bounded_multipliers false (staged_multipliers [0.05%float])) = true.
Proof. vm_compute. reflexivity. Qed.

End Bounds64.


(** A key that is none of the six named categories gets the neutral
    multiplier, as does [other]. *)
Lemma category_multiplier64_unknown (key : string) :
  key <> "meat" -> key <> "seafood" -> key <> "dairy" ->
  key <> "fruits" -> key <> "vegetables" -> key <> "bakery" ->
  default 1.0%float (category_adjustments64 !! key) = 1.0%float.
Proof.
  intros. unfold category_adjustments64.
  rewrite !lookup_insert_ne by congruence.
  destruct (decide (key = "other")) as [-> | N].
  - reflexivity.
  - rewrite lookup_singleton_ne by congruence. reflexivity.
Qed.

(** C10, as stated, fails in the arithmetic of the code: for scarce, very
    fresh seafood in peak demand at 20.0 the calculator returns
    38.697750000000006, which is more than 1.9348875 times 20.0. *)
Lemma fresh_seafood64_exceeds_exact_bound :
  calculate_rule_based_price64 Py.lower (fresh_seafood64 3)
  = 38.697750000000006%float
  /\ (1.9348875 * current_price64 (fresh_seafood64 3)
      <? calculate_rule_based_price64 Py.lower (fresh_seafood64 3))%float
     = true.
Proof. split; vm_compute; reflexivity. Qed.

(** C10, amended.  Whatever the stock level, the multiplier that the
    calculator applies never exceeds 1.9348875000000003, the double that
    the code obtains for 1.0 * 1.05 * 1.25 * 1.30 * 1.05 * 1.08 (the 1.10
    and 1.15 of the sales-velocity chain being unreachable), and the
    returned price is the current price times that multiplier, or times
    the 0.05 of the floor. *)
Theorem rule_based_price_upper_bound64 (str_lower : string -> string)
    (product_data : ProductData64) :
  (final_multiplier64 str_lower product_data
   <=? 1.9348875000000003)%float = true
  /\ (calculate_rule_based_price64 str_lower product_data
      = (current_price64 product_data
         * final_multiplier64 str_lower product_data)%float
      \/ calculate_rule_based_price64 str_lower product_data
         = (current_price64 product_data * 0.05)%float).
Proof.
  split; [| apply price64_is_a_product].
  pose proof reachable_multipliers_bound as B.
  rewrite forallb_forall in B.
  apply B, final_multiplier64_in.
Qed.

(** The bound is attained, at the product of the counterexample. *)
Example fresh_seafood64_multiplier :
  final_multiplier64 Py.lower (fresh_seafood64 3) = 1.9348875000000003%float.
Proof. vm_compute. reflexivity. Qed.

(** X3.  For an expired product the multiplier that the calculator
    applies never exceeds 0.092137500000000025, the double that the code
    obtains for 1.0 * 0.05 * 1.25 * 1.30 * 1.05 * 1.08: no floor of 0.70
    lifts it.  The returned price is the current price times that
    multiplier, or times the 0.05 of the floor. *)
Theorem expired_price_ceiling64 (str_lower : string -> string)
    (product_data : ProductData64) :
  (days_to_expiry64 product_data <= 0)%Z ->
  (final_multiplier64 str_lower product_data
   <=? 0.092137500000000025)%float = true
  /\ (calculate_rule_based_price64 str_lower product_data
      = (current_price64 product_data
         * final_multiplier64 str_lower product_data)%float
      \/ calculate_rule_based_price64 str_lower product_data
         = (current_price64 product_data * 0.05)%float).
Proof.
  intros Hd. split; [| apply price64_is_a_product].
  pose proof reachable_expired_multipliers_bound as B.
  rewrite forallb_forall in B.
  apply B, final_multiplier64_expired_in, Hd.
Qed.

Lemma expired_price_ceiling64_witness :
  let p := mkProductData64 1.0 (-1) 3 0.95 "seafood" 60 "monday" in
  (days_to_expiry64 p <= 0)%Z
  /\ (final_multiplier64 Py.lower p <=? 0.092137500000000025)%float = true
  /\ (calculate_rule_based_price64 Py.lower p
      = (current_price64 p * final_multiplier64 Py.lower p)%float
      \/ calculate_rule_based_price64 Py.lower p
         = (current_price64 p * 0.05)%float).
Proof.
  intros p.
  assert (H : (days_to_expiry64 p <= 0)%Z) by (simpl; lia).
  split; [exact H |].
  exact (expired_price_ceiling64 Py.lower p H).
Defined.



(** X5.  A category that is, lower-cased by Python, none of meat, seafood,
    dairy, fruits, vegetables and bakery is priced exactly like the
    category [other]. *)
Theorem unknown_category_priced_as_other64 (str_lower : string -> string)
    (p1 p2 : ProductData64) :
  str_lower (category64 p1) <> "meat" ->
  str_lower (category64 p1) <> "seafood" ->
  str_lower (category64 p1) <> "dairy" ->
  str_lower (category64 p1) <> "fruits" ->
  str_lower (category64 p1) <> "vegetables" ->
  str_lower (category64 p1) <> "bakery" ->
  str_lower (category64 p2) = "other" ->
  current_price64 p1 = current_price64 p2 ->
  days_to_expiry64 p1 = days_to_expiry64 p2 ->
  stock_level64 p1 = stock_level64 p2 ->
  demand_score64 p1 = demand_score64 p2 ->
  historical_sales64 p1 = historical_sales64 p2 ->
  calculate_rule_based_price64 str_lower p1
  = calculate_rule_based_price64 str_lower p2.
Proof.
  intros N1 N2 N3 N4 N5 N6 Ho Hp Hd Hn Hs Hh.
  pose proof (category_multiplier64_unknown _ N1 N2 N3 N4 N5 N6) as U.
  assert (O : default 1.0%float (category_adjustments64 !! "other")
              = 1.0%float) by reflexivity.
  unfold calculate_rule_based_price64, final_multiplier64, bound_multiplier64,
    category_stage64, sales_velocity_stage64, stock_stage64, demand_stage64,
    expiry_stage64.
  rewrite U, Ho, O, Hp, Hd, Hn, Hs, Hh. reflexivity.
Qed.

Lemma unknown_category_priced_as_other64_witness :
  let p1 := mkProductData64 10.0 4 30 0.4 "Spices" 25 "monday" in
  let p2 := mkProductData64 10.0 4 30 0.4 "Other" 25 "friday" in
  Py.lower (category64 p1) <> "meat"
  /\ Py.lower (category64 p1) <> "seafood"
  /\ Py.lower (category64 p1) <> "dairy"
  /\ Py.lower (category64 p1) <> "fruits"
  /\ Py.lower (category64 p1) <> "vegetables"
  /\ Py.lower (category64 p1) <> "bakery"
  /\ Py.lower (category64 p2) = "other"
  /\ current_price64 p1 = current_price64 p2
  /\ days_to_expiry64 p1 = days_to_expiry64 p2
  /\ stock_level64 p1 = stock_level64 p2
  /\ demand_score64 p1 = demand_score64 p2
  /\ historical_sales64 p1 = historical_sales64 p2
  /\ calculate_rule_based_price64 Py.lower p1
     = calculate_rule_based_price64 Py.lower p2.
Proof.
  intros p1 p2.
  assert (N1 : Py.lower (category64 p1) <> "meat")
    by (vm_compute; discriminate).
  assert (N2 : Py.lower (category64 p1) <> "seafood")
    by (vm_compute; discriminate).
  assert (N3 : Py.lower (category64 p1) <> "dairy")
    by (vm_compute; discriminate).
  assert (N4 : Py.lower (category64 p1) <> "fruits")
    by (vm_compute; discriminate).
  assert (N5 : Py.lower (category64 p1) <> "vegetables")
    by (vm_compute; discriminate).
  assert (N6 : Py.lower (category64 p1) <> "bakery")
    by (vm_compute; discriminate).
  split; [exact N1 |]. split; [exact N2 |]. split; [exact N3 |].
  split; [exact N4 |]. split; [exact N5 |]. split; [exact N6 |].
  split; [reflexivity |]. split; [reflexivity |]. split; [reflexivity |].
  split; [reflexivity |]. split; [reflexivity |]. split; [reflexivity |].
  exact (unknown_category_priced_as_other64 Py.lower p1 p2 N1 N2 N3 N4 N5 N6
           eq_refl eq_refl eq_refl eq_refl eq_refl eq_refl).
Defined.
